(** * Candlestick pattern detector: [scripts/candles pattern.py]

    A shallow embedding of the script and the properties its specification
    states about it.

    Numbers are IEEE-754 binary64 values (Rocq's primitive [float]), which is
    what a pandas [float64] column and a Python [float] hold.  A pandas
    [DataFrame] is an ordered association of column labels to columns; a
    raised Python exception is the [Raise] branch of [result].  The missing
    value [pd.NA] is [None] in a series, which then has dtype object:
    arithmetic with it gives [pd.NA], and a comparison of a float64 series
    with such a series raises, since the truth value of [pd.NA] is
    undefined. *)

From Stdlib Require Import ZArith Floats String Ascii List Bool.
From stdpp Require Import base option list strings gmap.

Set Warnings "-inexact-float".
Set Default Proof Using "Type".

Open Scope string_scope.

(* ===================================================================== *)
(** * Python values, exceptions and strings *)
(* ===================================================================== *)

(** The exceptions the script can raise. *)
Inductive exn :=
| AttributeError (type_name attr : string)
| KeyError (msg : string)
| TypeError (msg : string).

(** A computation that returns a value or raises. *)
Inductive result (A : Type) :=
| Ok (a : A)
| Raise (e : exn).
Arguments Ok {A} a.
Arguments Raise {A} e.

#[global] Instance result_ret : MRet result := fun _ a => Ok a.
#[global] Instance result_bind : MBind result := fun _ _ k m =>
  match m with
  | Ok a => k a
  | Raise e => Raise e
  end.

(** [for x in xs: acc = body(acc, x)], stopping at the first exception. *)
Fixpoint for_each {A B} (body : B -> A -> result B) (xs : list A) (acc : B)
  : result B :=
  match xs with
  | [] => Ok acc
  | x :: xs' => acc' ← body acc x; for_each body xs' acc'
  end.

(** [[f(x) for x in xs]], stopping at the first exception. *)
Fixpoint traverse {A B} (f : A -> result B) (xs : list A) : result (list B) :=
  match xs with
  | [] => Ok []
  | x :: xs' => y ← f x; ys ← traverse f xs'; Ok (y :: ys)
  end.

(** [str.lower] and [str.upper] on ASCII text. *)
Definition lower_ascii (a : ascii) : ascii :=
  let n := nat_of_ascii a in
  if Nat.leb 65 n && Nat.leb n 90 then ascii_of_nat (n + 32) else a.

Definition upper_ascii (a : ascii) : ascii :=
  let n := nat_of_ascii a in
  if Nat.leb 97 n && Nat.leb n 122 then ascii_of_nat (n - 32) else a.

Fixpoint lower (s : string) : string :=
  match s with
  | EmptyString => EmptyString
  | String a s' => String (lower_ascii a) (lower s')
  end.

Fixpoint upper (s : string) : string :=
  match s with
  | EmptyString => EmptyString
  | String a s' => String (upper_ascii a) (upper s')
  end.

(** [sep.join(parts)]. *)
Fixpoint join (sep : string) (parts : list string) : string :=
  match parts with
  | [] => EmptyString
  | [p] => p
  | p :: rest => p ++ sep ++ join sep rest
  end.

Fixpoint contains_char (a : ascii) (s : string) : bool :=
  match s with
  | EmptyString => false
  | String b s' => Ascii.eqb a b || contains_char a s'
  end.

Definition squote : ascii := "039"%char.
Definition dquote : ascii := "034"%char.

(** [repr(s)] for text without characters that need escaping: single quotes
    around it, double quotes when it holds a single quote and no double one. *)
Definition repr (s : string) : string :=
  let q := if contains_char squote s && negb (contains_char dquote s)
           then dquote else squote in
  String q (s ++ String q EmptyString).

(** [str(e)]: a [KeyError] prints the [repr] of its argument. *)
Definition exn_str (e : exn) : string :=
  match e with
  | KeyError msg => repr msg
  | TypeError msg => msg
  | AttributeError ty attr =>
      "'" ++ ty ++ "' object has no attribute '" ++ attr ++ "'"
  end.

(** Truthiness of a string: [if s:]. *)
Definition str_truthy (s : string) : bool :=
  match s with
  | EmptyString => false
  | _ => true
  end.

(* ===================================================================== *)
(** * Series and data frames *)
(* ===================================================================== *)

(** One cell of a table.  [VNA] is a missing value ([NaN]/[None]); read as
    a number it is [NaN]. *)
Inductive cell :=
| VFloat (x : float)
| VBool (b : bool)
| VStr (s : string)
| VNA.

Abbreviation Series := (list cell).

(** Column labels with their columns, in column order.  Every column has
    one entry per row. *)
Abbreviation DataFrame := (list (string * Series)).

(** A numeric series in which [None] is [pd.NA], and a boolean one. *)
Abbreviation fseries := (list (option float)).
Abbreviation bseries := (list (option bool)).

Definition columns (df : DataFrame) : list string := map fst df.

Definition nrows (df : DataFrame) : nat :=
  match df with
  | [] => 0
  | (_, c) :: _ => length c
  end.

Fixpoint find_col (name : string) (df : DataFrame) : option Series :=
  match df with
  | [] => None
  | (n, c) :: df' => if String.eqb n name then Some c else find_col name df'
  end.

(** [df[name]]. *)
Definition getitem (df : DataFrame) (name : string) : result Series :=
  match find_col name df with
  | Some c => Ok c
  | None => Raise (KeyError name)
  end.

(** [df[[n1, n2, ...]]]: the sub-frame of the listed columns. *)
Definition getitem_list (df : DataFrame) (names : list string)
  : result DataFrame :=
  traverse (fun n => c ← getitem df n; Ok (n, c)) names.

(** [df[name] = s]: replaces the column if the label exists, appends it
    otherwise. *)
Fixpoint setitem (df : DataFrame) (name : string) (s : Series) : DataFrame :=
  match df with
  | [] => [(name, s)]
  | (n, c) :: df' =>
      if String.eqb n name then (n, s) :: df' else (n, c) :: setitem df' name s
  end.

(** A cell as an operand of float arithmetic. *)
Definition to_float (v : cell) : result float :=
  match v with
  | VFloat x => Ok x
  | VNA => Ok nan
  | VBool _ => Raise (TypeError "numpy boolean subtract is not supported")
  | VStr _ => Raise (TypeError "unsupported operand type(s) for -: 'str' and 'str'")
  end.

Definition as_floats (s : Series) : result fseries :=
  traverse (fun v => x ← to_float v; Ok (Some x)) s.

(** [df[name]] used as a numeric operand. *)
Definition getf (df : DataFrame) (name : string) : result fseries :=
  s ← getitem df name; as_floats s.

(** [s.shift(1)]: every value moves down one row, the first row is filled
    with a missing value and the last value is dropped. *)
Definition shift_series (s : Series) : Series := take (length s) (VNA :: s).

(** [df.shift(1)]. *)
Definition shift (df : DataFrame) : DataFrame :=
  map (fun '(n, c) => (n, shift_series c)) df.

(** [df.rename(columns=mapping)]. *)
Definition rename (mapping : gmap string string) (df : DataFrame) : DataFrame :=
  map (fun '(n, c) => (default n (mapping !! n), c)) df.

(** The row at position [i], as the label-indexed series [df.apply(f, axis=1)]
    passes to [f]. *)
Definition row_at (df : DataFrame) (i : nat) : list (string * cell) :=
  map (fun '(n, c) => (n, nth i c VNA)) df.

Definition rows (df : DataFrame) : list (list (string * cell)) :=
  map (row_at df) (seq 0 (nrows df)).

Fixpoint row_get (row : list (string * cell)) (name : string) : result cell :=
  match row with
  | [] => Raise (KeyError name)
  | (n, v) :: row' => if String.eqb n name then Ok v else row_get row' name
  end.

(** Truthiness of a cell: [if row[name]:]. *)
Definition truthy (v : cell) : bool :=
  match v with
  | VBool b => b
  | VStr s => str_truthy s
  | VFloat x => negb (x =? 0)%float
  | VNA => true
  end.

(** ** Element-wise operations *)

(** [x > y] and [x >= y] on floats. *)
Definition gtb (x y : float) : bool := (y <? x)%float.
Definition geb (x y : float) : bool := (y <=? x)%float.

Definition lift2 {A B} (f : float -> float -> A) (g : A -> B)
  (x y : option float) : option B :=
  match x, y with
  | Some a, Some b => Some (g (f a b))
  | _, _ => None
  end.

Definition ssub (a b : fseries) : fseries :=
  zip_with (lift2 PrimFloat.sub id) a b.
Definition sabs (a : fseries) : fseries := map (fmap PrimFloat.abs) a.
Definition smul_scalar (t : float) (a : fseries) : fseries :=
  map (fmap (PrimFloat.mul t)) a.
Definition smul_scalar_r (a : fseries) (t : float) : fseries :=
  map (fmap (fun x => PrimFloat.mul x t)) a.

(** [s.replace(0, pd.NA)]. *)
Definition replace_zero_na (a : fseries) : fseries :=
  map (fun x => match x with
                | Some v => if (v =? 0)%float then None else Some v
                | None => None
                end) a.

(** [s.clip(lower=lo)]. *)
Definition clip_lower (lo : float) (a : fseries) : fseries :=
  map (fmap (fun v => if (v <? lo)%float then lo else v)) a.

(** Element-wise comparisons of series without [pd.NA]. *)
Definition slt (a b : fseries) : bseries := zip_with (lift2 PrimFloat.ltb id) a b.
Definition sle (a b : fseries) : bseries := zip_with (lift2 PrimFloat.leb id) a b.
Definition sgt (a b : fseries) : bseries := zip_with (lift2 gtb id) a b.
Definition sge (a b : fseries) : bseries := zip_with (lift2 geb id) a b.

(** Whether a series holds [pd.NA]. *)
Definition has_na (a : fseries) : bool :=
  existsb (fun x => match x with None => true | Some _ => false end) a.

(** The exception of [bool(pd.NA)]. *)
Definition na_truth_error : exn := TypeError "boolean value of NA is ambiguous".

(** [a < b] and the like with a float64 series [a] and a series [b] that may
    hold [pd.NA]: the comparison is made element by element and the truth
    value of each result is taken, which raises on a result [pd.NA]. *)
Definition compare_obj (cmp : fseries -> fseries -> bseries) (a b : fseries)
  : result bseries :=
  if has_na b then Raise na_truth_error else Ok (cmp a b).

(** [a & b] on boolean series with missing values (Kleene logic). *)
Definition and_na (x y : option bool) : option bool :=
  match x, y with
  | Some false, _ | _, Some false => Some false
  | Some true, Some true => Some true
  | _, _ => None
  end.
Definition sand (a b : bseries) : bseries := zip_with and_na a b.

(** [s.fillna(v)] on a boolean series. *)
Definition fillna (v : bool) (a : bseries) : list bool := map (default v) a.

(** [out[mask] = v]. *)
Definition mask_assign {A} (out : list A) (mask : list bool) (v : A) : list A :=
  zip_with (fun o (m : bool) => if m then v else o) out mask.

(** [max]/[min] of two floats that skip [NaN], as the reductions of a frame
    along [axis=1] do. *)
Definition nanmax (x y : float) : float :=
  if is_nan x then y else if is_nan y then x
  else if (x <? y)%float then y else x.
Definition nanmin (x y : float) : float :=
  if is_nan x then y else if is_nan y then x
  else if (y <? x)%float then y else x.

(** Reduction of a frame along [axis=1]. *)
Definition reduce_axis1 (f : float -> float -> float) (df : DataFrame)
  : result fseries :=
  cols ← traverse (fun '(_, c) => as_floats c) df;
  match cols with
  | [] => Ok []
  | c :: cs => Ok (foldl (zip_with (lift2 f id)) c cs)
  end.

(** The receivers of [.max(axis=1)] and [.min(axis=1)] in the script: a
    frame has these methods, a Python [list] does not. *)
Inductive pyobj :=
| PyFrame (df : DataFrame)
| PyList (items : list string).

Definition call_max_axis1 (o : pyobj) : result fseries :=
  match o with
  | PyFrame df => reduce_axis1 nanmax df
  | PyList _ => Raise (AttributeError "list" "max")
  end.

Definition call_min_axis1 (o : pyobj) : result fseries :=
  match o with
  | PyFrame df => reduce_axis1 nanmin df
  | PyList _ => Raise (AttributeError "list" "min")
  end.

(** [df[key]] with a float series as the key: its values are looked up as
    column labels, and no label of a frame read from CSV is a float. *)
Definition getitem_series (df : DataFrame) (key : fseries) : result fseries :=
  match key with
  | [] => Ok []
  | _ :: _ => Raise (KeyError "None of the key's values are in the [columns]")
  end.

(* ===================================================================== *)
(** * The script *)
(* ===================================================================== *)

(** The names the four price columns must match, ignoring case. *)
Definition required_names : list string := ["open"; "high"; "low"; "close"].

Definition missing_column_msg (name : string) : string :=
  "Input CSV must contain column '" ++ name ++ "' (case-insensitive)".

(** [{c.lower(): c for c in df.columns}]: a later column replaces an earlier
    one with the same lower-cased label. *)
Definition lower_index (labels : list string) : gmap string string :=
  foldl (fun m c => <[lower c := c]> m) ∅ labels.

(** One turn of the loop of [_normalize_cols]. *)
Definition normalize_step (cols : gmap string string)
  (mapping : gmap string string) (name : string)
  : result (gmap string string) :=
  match cols !! name with
  | Some c => Ok (<[c := upper (substring 0 1 name)]> mapping)
  | None => Raise (KeyError (missing_column_msg name))
  end.

(** Ensure OHLC columns exist and normalize names to O,H,L,C. *)
Definition _normalize_cols (df : DataFrame) : result DataFrame :=
  let cols := lower_index (columns df) in
  mapping ← for_each (normalize_step cols) required_names ∅;
  Ok (rename mapping df).

Definition default_threshold : float := 0.1%float.
Definition default_body_to_range : float := 0.25%float.
Definition default_lower_wick_min : float := 2.0%float.

(** Detect Doji candles. *)
Definition detect_doji (df : DataFrame) (threshold : float)
  : result (list bool) :=
  o ← getf df "O";
  c ← getf df "C";
  let body := sabs (ssub o c) in
  h ← getf df "H";
  l ← getf df "L";
  let rng := replace_zero_na (sabs (ssub h l)) in
  is_doji ← compare_obj slt body (smul_scalar threshold rng);
  Ok (fillna false is_doji).

(** Detect Hammer / Hanging Man-like shapes.  The receiver of [.min] in the
    third statement is the list literal [["O", "C"]], as in the source. *)
Definition detect_hammer (df : DataFrame) (body_to_range lower_wick_min : float)
  : result (list bool) :=
  (* body = (df["O"] - df["C"]).abs() *)
  o ← getf df "O";
  c ← getf df "C";
  let body := sabs (ssub o c) in
  (* upper_wick = (df["H"] - df[["O", "C"]].max(axis=1)).abs() *)
  h ← getf df "H";
  oc ← getitem_list df ["O"; "C"];
  top ← call_max_axis1 (PyFrame oc);
  let upper_wick := sabs (ssub h top) in
  (* lower_wick = (df[["O", "C"].min(axis=1) - df["L"]]).abs() *)
  bottom ← call_min_axis1 (PyList ["O"; "C"]);
  l ← getf df "L";
  sel ← getitem_series df (ssub bottom l);
  let lower_wick := sabs sel in
  (* rng = (df["H"] - df["L"]).abs().replace(0, pd.NA) *)
  h' ← getf df "H";
  l' ← getf df "L";
  let rng := replace_zero_na (sabs (ssub h' l')) in
  small_body ← compare_obj sle body (smul_scalar body_to_range rng);
  let strong_lower :=
    sge lower_wick (smul_scalar lower_wick_min (clip_lower 1e-9%float body)) in
  let small_upper := sle upper_wick (smul_scalar_r body lower_wick_min) in
  Ok (fillna false (sand (sand small_body strong_lower) small_upper)).

(** The two masks of [detect_engulfing]: [(be_mask, se_mask)]. *)
Definition engulfing_masks (df : DataFrame) : result (bseries * bseries) :=
  let prev := shift df in
  pc ← getf prev "C";
  po ← getf prev "O";
  let prev_bear := slt pc po in
  let prev_bull := sgt pc po in
  c ← getf df "C";
  o ← getf df "O";
  let curr_bear := slt c o in
  let curr_bull := sgt c o in
  let be_mask := sand (sand (sand prev_bear curr_bull) (sle o pc)) (sge c po) in
  let se_mask := sand (sand (sand prev_bull curr_bear) (sge o pc)) (sle c po) in
  Ok (be_mask, se_mask).

(** Detect Bullish and Bearish Engulfing patterns. *)
Definition detect_engulfing (df : DataFrame) : result (list string) :=
  masks ← engulfing_masks df;
  let out := replicate (nrows df) EmptyString in
  let out := mask_assign out (fillna false masks.1) "Bullish Engulfing" in
  let out := mask_assign out (fillna false masks.2) "Bearish Engulfing" in
  Ok out.

(** [", ".join(parts)]: every part must be a [str]. *)
Definition join_cells (sep : string) (parts : list cell) : result string :=
  strs ← traverse (fun v => match v with
                            | VStr s => Ok s
                            | _ => Raise (TypeError "sequence item: expected str instance")
                            end) parts;
  Ok (join sep strs).

(** The row-wise combiner nested in [detect_patterns]. *)
Definition _combine (row : list (string * cell)) : result string :=
  let parts : list cell := [] in
  doji ← row_get row "Doji";
  let parts := if truthy doji then (parts ++ [VStr "Doji"])%list else parts in
  hammer ← row_get row "HammerLike";
  let parts := if truthy hammer then (parts ++ [VStr "HammerLike"])%list else parts in
  engulfing ← row_get row "Engulfing";
  let parts := if truthy engulfing then (parts ++ [engulfing])%list else parts in
  join_cells ", " parts.

(** Return df with additional columns describing detected patterns. *)
Definition detect_patterns (df : DataFrame) : result DataFrame :=
  let df2 := df in
  doji ← detect_doji df2 default_threshold;
  let df2 := setitem df2 "Doji" (map VBool doji) in
  hammer ← detect_hammer df2 default_body_to_range default_lower_wick_min;
  let df2 := setitem df2 "HammerLike" (map VBool hammer) in
  engulfing ← detect_engulfing df2;
  let df2 := setitem df2 "Engulfing" (map VStr engulfing) in
  pattern ← traverse _combine (rows df2);
  let df2 := setitem df2 "Pattern" (map VStr pattern) in
  Ok df2.

(** ** The command line *)

Record Args := mkArgs {
  input : string;
  output : option string;
  plot : bool
}.

(** What a run does to the outside world, in order. *)
Inductive event :=
| Stdout (line : string)
| Stderr (line : string)
| WriteCsv (path : string) (table : DataFrame)
| PrintCsv (table : DataFrame)
| PlotCandles (table : DataFrame).

Record outcome := mkOutcome {
  events : list event;
  status : result Z
}.

Definition plot_names : gmap string string :=
  <["O" := "Open"]> (<["H" := "High"]> (<["L" := "Low"]> (<["C" := "Close"]> ∅))).

(** [df.tail(n)]. *)
Definition tail_rows (n : nat) (df : DataFrame) : DataFrame :=
  map (fun '(l, c) => (l, drop (length c - n) c)) df.

(** [main], from the point where [parse_args] has returned [args]: [csv] is
    the table [pd.read_csv(args.input)] returns and [plot_error] the
    exception, if any, that importing or calling [mplfinance] raises.
    [status] is the returned exit code, or the exception that escapes. *)
Definition main (args : Args) (csv : DataFrame) (plot_error : option string)
  : outcome :=
  match _normalize_cols csv with
  | Raise (KeyError m) =>
      mkOutcome [Stderr (exn_str (KeyError m))] (Ok 2%Z)
  | Raise e => mkOutcome [] (Raise e)
  | Ok df =>
      match detect_patterns df with
      | Raise e => mkOutcome [] (Raise e)
      | Ok out =>
          let written :=
            match output args with
            | Some path =>
                if str_truthy path
                then [WriteCsv path out; Stdout ("Wrote detections to " ++ path)]
                else [PrintCsv out]
            | None => [PrintCsv out]
            end in
          let plotted :=
            if plot args then
              match plot_error with
              | None => [PlotCandles (tail_rows 50 (rename plot_names df))]
              | Some e => [Stderr ("Plot failed (mplfinance required): " ++ e)]
              end
            else [] in
          mkOutcome (written ++ plotted)%list (Ok 0%Z)
      end
  end.

(** ** Candles *)

(** One OHLC record, as the specification names its fields. *)
Record Candle := mkCandle {
  open : float;
  high : float;
  low : float;
  close : float
}.

(** The frame of the four normalized price columns of a sequence. *)
Definition ohlc_frame (cs : list Candle) : DataFrame :=
  [("O", map (fun k => VFloat (open k)) cs);
   ("H", map (fun k => VFloat (high k)) cs);
   ("L", map (fun k => VFloat (low k)) cs);
   ("C", map (fun k => VFloat (close k)) cs)].

(** [df] is a normalized frame whose rows are the candles [cs]; it may have
    any further columns. *)
Definition holds (df : DataFrame) (cs : list Candle) : Prop :=
  nrows df = length cs /\
  getf df "O" = Ok (map (fun k => Some (open k)) cs) /\
  getf df "H" = Ok (map (fun k => Some (high k)) cs) /\
  getf df "L" = Ok (map (fun k => Some (low k)) cs) /\
  getf df "C" = Ok (map (fun k => Some (close k)) cs).

(** Body and range of a candle. *)
Definition body (k : Candle) : float := abs (open k - close k)%float.
Definition range (k : Candle) : float := abs (high k - low k)%float.

(** *** Row-wise reading of the rules

    What the vectorised rules compute at one row of a frame that holds a
    sequence of candles. *)

(** The range of the candle is zero: [replace] puts [pd.NA] at its row. *)
Definition zero_range (k : Candle) : bool := (range k =? 0)%float.

(** The flag of a candle when the Doji rule returns. *)
Definition doji_row (threshold : float) (k : Candle) : bool :=
  if (range k =? 0)%float then false
  else (body k <? threshold * range k)%float.

(** The candle before the first one reads as [NaN] in every column. *)
Definition prev_open (p : option Candle) : float := from_option open nan p.
Definition prev_close (p : option Candle) : float := from_option close nan p.

(** The sequence of predecessors: [df.shift(1)] as candles. *)
Definition prevs (cs : list Candle) : list (option Candle) :=
  take (length cs) (None :: map Some cs).

Definition be_row (p : option Candle) (k : Candle) : bool :=
  (prev_close p <? prev_open p)%float && gtb (close k) (open k)
  && (open k <=? prev_close p)%float && geb (close k) (prev_open p).

Definition se_row (p : option Candle) (k : Candle) : bool :=
  gtb (prev_close p) (prev_open p) && (close k <? open k)%float
  && geb (open k) (prev_close p) && (close k <=? prev_open p)%float.

Definition engulfing_row (p : option Candle) (k : Candle) : string :=
  if se_row p k then "Bearish Engulfing"
  else if be_row p k then "Bullish Engulfing"
  else EmptyString.

(** A price of the candle is missing ([NaN]). *)
Definition missing_price (k : Candle) : bool :=
  is_nan (open k) || is_nan (high k) || is_nan (low k) || is_nan (close k).

(** The values the docstring of [detect_engulfing] lists. *)
Definition engulfing_values : list string :=
  [EmptyString; "Bullish Engulfing"; "Bearish Engulfing"].

(** The candle with every price negated: the chart upside down. *)
Definition mirror (k : Candle) : Candle :=
  mkCandle (- open k) (- low k) (- high k) (- close k).

(** Bullish for bearish and back. *)
Definition swap_label (s : string) : string :=
  if String.eqb s "Bullish Engulfing" then "Bearish Engulfing"
  else if String.eqb s "Bearish Engulfing" then "Bullish Engulfing"
  else s.

(** A comparison operand that is [NaN], a zero or negative. *)
Definition nonpos_or_nan (r : spec_float) : Prop :=
  match r with
  | S754_nan | S754_zero _ => True
  | S754_infinity s | S754_finite s _ _ => s = true
  end.

(** *** The conditions of the specification *)

(** A flag [b] is what the Doji rule of the specification gives on [k]. *)
Definition doji_contract (threshold : float) (k : Candle) (b : bool) : Prop :=
  (b = true <->
   (0 <? range k)%float = true /\
   (body k <? threshold * range k)%float = true) /\
  ((range k =? 0)%float = true -> b = false).

Definition flat (k : Candle) : Prop := (open k =? close k)%float = true.

Definition bullish_engulfing (prev curr : Candle) : Prop :=
  (close prev <? open prev)%float = true /\
  gtb (close curr) (open curr) = true /\
  (open curr <=? close prev)%float = true /\
  geb (close curr) (open prev) = true.

Definition bearish_engulfing (prev curr : Candle) : Prop :=
  gtb (close prev) (open prev) = true /\
  (close curr <? open curr)%float = true /\
  geb (open curr) (close prev) = true /\
  (close curr <=? open prev)%float = true.

(** What the Engulfing rule of the specification gives for the pair
    [(prev, curr)], as a statement about the classification [cls] of [curr]. *)
Definition engulfing_contract (prev curr : Candle) (cls : option string) : Prop :=
  (cls = Some "Bullish Engulfing" <-> bullish_engulfing prev curr) /\
  (cls = Some "Bearish Engulfing" <-> bearish_engulfing prev curr) /\
  (cls = Some EmptyString
   <-> ~ bullish_engulfing prev curr /\ ~ bearish_engulfing prev curr) /\
  (flat prev \/ flat curr -> cls = Some EmptyString).

(** The tags of a record in the fixed order Doji, HammerLike, Engulfing. *)
Definition fired_tags (doji hammer : bool) (engulfing : string) : list string :=
  ((if doji then ["Doji"] else []) ++
   (if hammer then ["HammerLike"] else []) ++
   (if str_truthy engulfing then [engulfing] else []))%list.

(** The label of every combination of rule outputs, written out. *)
Definition label (doji hammer : bool) (engulfing : string) : string :=
  match doji, hammer, str_truthy engulfing with
  | false, false, false => EmptyString
  | true, false, false => "Doji"
  | false, true, false => "HammerLike"
  | true, true, false => "Doji, HammerLike"
  | false, false, true => engulfing
  | true, false, true => "Doji, " ++ engulfing
  | false, true, true => "HammerLike, " ++ engulfing
  | true, true, true => "Doji, HammerLike, " ++ engulfing
  end.

Definition scenario1 : Candle := mkCandle 10 10 10 10.
Definition scenario2 : Candle := mkCandle 10 10.5 9.95 10.02.
Definition scenario3_prev : Candle := mkCandle 12 12.2 10 10.5.
Definition scenario3_curr : Candle := mkCandle 10.2 12.5 10 12.3.
Definition scenario4 : list Candle := [scenario3_prev; scenario3_curr; scenario1].

(** Two zero-body candles with a nonzero range: one whose range is so small
    that a tenth of it rounds to zero, and one with everyday prices. *)
Definition tiny_range_candle : Candle := mkCandle 1e-323 1.5e-323 1e-323 1e-323.
Definition plain_flat_candle : Candle := mkCandle 1 1.5 1 1.

(** A zero-body candle at an infinite price. *)
Definition infinite_flat_candle : Candle := mkCandle infinity infinity 1 infinity.

(** A candle whose high lies below its body and whose low lies above it. *)
Definition inverted_candle : Candle := mkCandle 10 9 11 10.5.

(** A candle whose high is missing, and one with the open and close of
    scenario 3's current candle but other wicks. *)
Definition nan_high_candle : Candle := mkCandle 10 nan 9.95 10.02.
Definition scenario3_curr_wide : Candle := mkCandle 10.2 20 1 12.3.

(** A sequence whose second record has no close. *)
Definition gap_sequence : list Candle :=
  [scenario3_prev; mkCandle 10.2 12.5 10 nan; scenario1].

(** The row [sample_row] at other prices. *)
Definition sample_row_other : list (string * cell) :=
  [("O", VFloat 1); ("H", VFloat 3); ("L", VFloat 0.5); ("C", VFloat 2);
   ("Doji", VBool true); ("HammerLike", VBool false);
   ("Engulfing", VStr "Bullish Engulfing")].

(** A table with two columns that match [open]. *)
Definition csv_two_opens : DataFrame :=
  [("Open", [VFloat 1]); ("OPEN", [VFloat 10]); ("High", [VFloat 10.5]);
   ("Low", [VFloat 9.95]); ("Close", [VFloat 10.02])].

(** A row on which no rule fired. *)
Definition quiet_row : list (string * cell) :=
  [("O", VFloat 10); ("H", VFloat 10); ("L", VFloat 10); ("C", VFloat 10);
   ("Doji", VBool false); ("HammerLike", VBool false);
   ("Engulfing", VStr EmptyString)].

(** A row of an augmented frame. *)
Definition sample_row : list (string * cell) :=
  [("O", VFloat 10.2); ("H", VFloat 12.5); ("L", VFloat 10); ("C", VFloat 12.3);
   ("Doji", VBool true); ("HammerLike", VBool false);
   ("Engulfing", VStr "Bullish Engulfing")].

(** Two tables as read from CSV: one without a low column, one complete. *)
Definition csv_without_low : DataFrame :=
  [("Date", [VStr "2024-01-02"]); ("Open", [VFloat 10]); ("HIGH", [VFloat 10.5]);
   ("Close", [VFloat 10.02])].

Definition csv_complete : DataFrame :=
  [("Date", [VStr "2024-01-02"]); ("Open", [VFloat 10]); ("HIGH", [VFloat 10.5]);
   ("low", [VFloat 9.95]); ("Close", [VFloat 10.02])].

(** ** Proof automation *)

(** Runs the binds whose left operand is a known result. *)
Ltac run_binds := cbv beta iota zeta delta [mbind result_bind].

(** Hypotheses on concrete frames are settled by running the definitions. *)
Ltac by_running := repeat split; vm_compute; reflexivity.

(* ===================================================================== *)
(** * Facts about binary64 comparison and arithmetic *)
(* ===================================================================== *)

Section Binary64.
Open Scope float_scope.

Lemma SFcompare_antisym a b c :
  SFcompare a b = Some c -> SFcompare b a = Some (CompOpp c).
Proof.
  destruct a as [[]|[]| |[] ma ea], b as [[]|[]| |[] mb eb]; simpl;
    try congruence; intros [= <-]; try reflexivity;
    assert (Hm : Pos.compare_cont Eq mb ma
                 = CompOpp (Pos.compare_cont Eq ma mb))
      by (symmetry; apply (Pos.compare_cont_antisym ma mb Eq));
    rewrite (Z.compare_antisym ea eb), Hm;
    destruct (ea ?= eb)%Z; simpl; try reflexivity;
    destruct (Pos.compare_cont Eq ma mb); reflexivity.
Qed.

(** [<] is asymmetric. *)
Lemma ltb_asym x y : (x <? y) = true -> (y <? x) = false.
Proof.
  rewrite !FloatAxioms.ltb_spec. unfold SFltb.
  destruct (SFcompare (Prim2SF x) (Prim2SF y)) as [[]|] eqn:E; try discriminate.
  intros _. now rewrite (SFcompare_antisym _ _ _ E).
Qed.

(** Equal floats are not ordered either way. *)
Lemma eqb_not_ltb x y :
  (x =? y) = true -> (x <? y) = false /\ (y <? x) = false.
Proof.
  rewrite FloatAxioms.eqb_spec, !FloatAxioms.ltb_spec. unfold SFeqb, SFltb.
  destruct (SFcompare (Prim2SF x) (Prim2SF y)) as [[]|] eqn:E; try discriminate.
  intros _. now rewrite (SFcompare_antisym _ _ _ E).
Qed.

(** An absolute value is [NaN], zero or positive. *)
Lemma abs_cases x :
  Prim2SF (abs x) = S754_nan \/ (abs x =? 0) = true \/ (0 <? abs x) = true.
Proof.
  rewrite FloatAxioms.eqb_spec, FloatAxioms.ltb_spec, FloatAxioms.abs_spec.
  destruct (Prim2SF x) as [[]|[]| |[] m e]; cbn; auto.
Qed.

Lemma ltb_nan_r x y : Prim2SF y = S754_nan -> (x <? y) = false.
Proof.
  intros Hy. rewrite FloatAxioms.ltb_spec, Hy. unfold SFltb.
  now destruct (Prim2SF x).
Qed.

Lemma mul_nan_r t r : Prim2SF r = S754_nan -> Prim2SF (t * r) = S754_nan.
Proof.
  intros Hr. rewrite FloatAxioms.mul_spec, Hr. unfold SF64mul.
  now destruct (Prim2SF t).
Qed.

(** A product with a zero is never positive. *)
Lemma mul_zero_not_pos t r : (r =? 0) = true -> (0 <? t * r) = false.
Proof.
  rewrite FloatAxioms.eqb_spec, FloatAxioms.ltb_spec, FloatAxioms.mul_spec. unfold SF64mul.
  destruct (Prim2SF r) as [sr|[]| |[] m e]; cbn; try discriminate.
  intros _. now destruct (Prim2SF t) as [[]|[]| |[] mt et], sr.
Qed.

(** The difference of two equal finite floats is [+0] after [abs]. *)
Lemma abs_sub_eqb x y :
  (x =? y) = true -> is_infinity x = false -> abs (x - y) = 0.
Proof.
  unfold is_infinity. rewrite !FloatAxioms.eqb_spec, FloatAxioms.abs_spec. intros Heq Hinf.
  apply Prim2SF_inj. rewrite FloatAxioms.abs_spec, FloatAxioms.sub_spec.
  unfold SFeqb in Heq.
  destruct (Prim2SF x) as [sx|sx| |sx mx ex] eqn:Ex;
    destruct (Prim2SF y) as [sy|sy| |sy my ey] eqn:Ey;
    try (destruct sx; discriminate);
    try (destruct sy; discriminate); try discriminate.
  - now destruct sx, sy.
  - assert (sx = sy /\ ex = ey /\ mx = my) as (-> & -> & ->).
    { cbn in Heq.
      destruct sx, sy; try discriminate;
        destruct (ex ?= ey)%Z eqn:Hz; try discriminate;
        apply Z.compare_eq in Hz;
        destruct (Pos.compare_cont Eq mx my) eqn:Hp; try discriminate;
        apply Pos.compare_eq in Hp; auto. }
    unfold SF64sub, SFsub. cbv zeta. rewrite Z.sub_diag. reflexivity.
Qed.

End Binary64.

(* ===================================================================== *)
(** * Reading frames *)
(* ===================================================================== *)

Lemma traverse_length {A B} (f : A -> result B) xs ys :
  traverse f xs = Ok ys -> length ys = length xs.
Proof.
  revert ys. induction xs as [|x xs IH]; intros ys; simpl.
  - now intros [= <-].
  - destruct (f x) as [y|]; simpl; [|discriminate].
    destruct (traverse f xs) as [ys'|]; simpl; [|discriminate].
    intros [= <-]. simpl. f_equal. now apply IH.
Qed.

Lemma traverse_take {A B} (f : A -> result B) n xs ys :
  traverse f xs = Ok ys -> traverse f (take n xs) = Ok (take n ys).
Proof.
  revert n ys. induction xs as [|x xs IH]; intros n ys; simpl.
  - intros [= <-]. now destruct n.
  - destruct (f x) as [y|] eqn:Hy; simpl; [|discriminate].
    destruct (traverse f xs) as [ys'|] eqn:Hys; simpl; [|discriminate].
    intros [= <-]. destruct n as [|n]; simpl; [reflexivity|].
    rewrite Hy. simpl. now rewrite (IH n ys').
Qed.

Lemma as_floats_of_floats {A} (g : A -> float) (xs : list A) :
  as_floats (map (fun a => VFloat (g a)) xs) = Ok (map (fun a => Some (g a)) xs).
Proof.
  unfold as_floats. induction xs as [|x xs IH]; simpl; [reflexivity|].
  now rewrite IH.
Qed.

(** The four price columns of [ohlc_frame cs] read back as [cs]. *)
Lemma ohlc_frame_holds cs : holds (ohlc_frame cs) cs.
Proof.
  unfold holds, ohlc_frame, getf, getitem. simpl.
  rewrite !as_floats_of_floats, length_map. auto.
Qed.

Lemma find_col_shift name df :
  find_col name (shift df) = shift_series <$> find_col name df.
Proof.
  induction df as [|[n c] df IH]; simpl; [reflexivity|].
  now destruct (String.eqb n name).
Qed.

(** Reading a column of the shifted frame. *)
Lemma getf_shift df name xs :
  getf df name = Ok xs ->
  getf (shift df) name = Ok (take (length xs) (Some nan :: xs)).
Proof.
  unfold getf, getitem. rewrite find_col_shift.
  destruct (find_col name df) as [c|]; simpl; [|discriminate].
  intros Hc. unfold shift_series, as_floats in *.
  rewrite <- (traverse_length _ _ _ Hc).
  apply traverse_take. simpl. now rewrite Hc.
Qed.

(* ===================================================================== *)
(** * The Doji rule *)
(* ===================================================================== *)

(** The vectorised rule, row by row. *)
Lemma doji_series thr (cs : list Candle) :
  fillna false
    (slt (sabs (ssub (map (fun k => Some (open k)) cs)
                     (map (fun k => Some (close k)) cs)))
         (smul_scalar thr
            (replace_zero_na
               (sabs (ssub (map (fun k => Some (high k)) cs)
                           (map (fun k => Some (low k)) cs))))))
  = map (doji_row thr) cs.
Proof.
  induction cs as [|k cs IH]; [reflexivity|].
  cbn [map]. unfold fillna, slt, sabs, ssub, smul_scalar, replace_zero_na in *.
  cbn [zip_with map]. rewrite IH. f_equal.
  unfold doji_row, range, body. cbn.
  now destruct (abs (high k - low k) =? 0)%float.
Qed.

(** The right operand of the comparison holds [pd.NA] exactly when some
    candle has a zero range. *)
Lemma doji_operand_na thr (cs : list Candle) :
  has_na (smul_scalar thr
            (replace_zero_na
               (sabs (ssub (map (fun k => Some (high k)) cs)
                           (map (fun k => Some (low k)) cs)))))
  = existsb zero_range cs.
Proof.
  unfold has_na, smul_scalar, replace_zero_na, sabs, ssub.
  induction cs as [|k cs IH]; [reflexivity|].
  cbn [map zip_with existsb]. rewrite IH. f_equal.
  unfold zero_range, range. cbv [lift2 id fmap option_fmap option_map].
  now destruct (abs (high k - low k) =? 0)%float.
Qed.

Lemma existsb_zero_range_true cs :
  Exists (fun k => zero_range k = true) cs -> existsb zero_range cs = true.
Proof.
  intros H. apply existsb_exists. apply Exists_exists in H as (k & Hk & Hz).
  exists k. split; [now apply list_elem_of_In|exact Hz].
Qed.

Lemma existsb_zero_range_false cs :
  Forall (fun k => zero_range k = false) cs -> existsb zero_range cs = false.
Proof.
  induction 1 as [|k cs Hk _ IH]; [reflexivity|].
  cbn [existsb]. now rewrite Hk, IH.
Qed.

(** The rule on a frame of candles: the exception of the comparison when a
    candle has a zero range, the row-wise flags otherwise. *)
Lemma detect_doji_rows df cs thr :
  holds df cs ->
  detect_doji df thr
  = if existsb zero_range cs then Raise na_truth_error
    else Ok (map (doji_row thr) cs).
Proof.
  intros (_ & Ho & Hh & Hl & Hc). unfold detect_doji.
  rewrite Ho, Hc, Hh, Hl. run_binds. unfold compare_obj.
  rewrite doji_operand_na. destruct (existsb zero_range cs); [reflexivity|].
  now rewrite doji_series.
Qed.

Lemma detect_doji_returns df cs thr :
  holds df cs -> Forall (fun k => zero_range k = false) cs ->
  detect_doji df thr = Ok (map (doji_row thr) cs).
Proof.
  intros Hdf Hnz. rewrite (detect_doji_rows df cs thr Hdf).
  now rewrite existsb_zero_range_false.
Qed.

Lemma detect_doji_zero_range df cs thr :
  holds df cs -> Exists (fun k => zero_range k = true) cs ->
  detect_doji df thr = Raise na_truth_error.
Proof.
  intros Hdf Hz. rewrite (detect_doji_rows df cs thr Hdf).
  now rewrite existsb_zero_range_true.
Qed.

(** The row-wise rule is the conjunction the specification states. *)
Lemma doji_row_true thr k :
  doji_row thr k = true <->
  (0 <? range k)%float = true /\ (body k <? thr * range k)%float = true.
Proof.
  unfold doji_row, range.
  destruct (abs (high k - low k) =? 0)%float eqn:Hz.
  - apply eqb_not_ltb in Hz as [_ Hz]. rewrite Hz. intuition discriminate.
  - split; [|tauto]. intros Hlt. split; [|exact Hlt].
    destruct (abs_cases (high k - low k)%float) as [Hn|[Hn|Hn]].
    + rewrite ltb_nan_r in Hlt by now apply mul_nan_r. discriminate.
    + congruence.
    + exact Hn.
Qed.

Lemma doji_row_zero_range thr k :
  (range k =? 0)%float = true -> doji_row thr k = false.
Proof. unfold doji_row. now intros ->. Qed.

(** C2. The specification asks the Doji rule to return, for every candle,
    true exactly when [range > 0] and [body < threshold * range], and false on
    a zero range rather than an error.  The code does so only on a frame
    without a zero range; as soon as one candle has [range == 0] the
    comparison [body < threshold * rng] meets [pd.NA] and the whole call
    raises [TypeError: boolean value of NA is ambiguous].  The threshold is a
    parameter whose default is 0.1. *)
Theorem detect_doji_spec df cs threshold :
  holds df cs ->
  default_threshold = 0.1%float /\
  (Exists (fun k => zero_range k = true) cs ->
   detect_doji df threshold = Raise na_truth_error) /\
  (Forall (fun k => zero_range k = false) cs ->
   exists flags,
     detect_doji df threshold = Ok flags /\
     Forall2 (doji_contract threshold) cs flags).
Proof.
  intros Hdf. split; [reflexivity|]. split.
  - now apply detect_doji_zero_range.
  - intros Hnz. exists (map (doji_row threshold) cs).
    split; [now apply detect_doji_returns|].
    apply Forall2_fmap_r, Forall_Forall2_diag, Forall_forall. intros k _.
    split; [apply doji_row_true | apply doji_row_zero_range].
Qed.

Lemma detect_doji_spec_witness :
  holds (ohlc_frame [scenario1; scenario2]) [scenario1; scenario2] /\
  zero_range scenario1 = true /\
  detect_doji (ohlc_frame [scenario1; scenario2]) 0.1 = Raise na_truth_error.
Proof.
  assert (H : holds (ohlc_frame [scenario1; scenario2]) [scenario1; scenario2])
    by by_running.
  assert (Hz : zero_range scenario1 = true) by (vm_compute; reflexivity).
  split; [exact H|]. split; [exact Hz|].
  apply (proj1 (proj2 (detect_doji_spec _ _ 0.1%float H))).
  apply Exists_cons_hd. exact Hz.
Defined.

(** Scenarios 1 and 2 of the specification: the first expects false. *)
Example doji_scenario1 :
  detect_doji (ohlc_frame [scenario1]) default_threshold = Raise na_truth_error.
Proof. by_running. Qed.

Example doji_scenario2 :
  body scenario2 = 0.019999999999999574%float /\
  range scenario2 = 0.55000000000000071%float /\
  detect_doji (ohlc_frame [scenario2]) default_threshold = Ok [true].
Proof. by_running. Qed.

(** A candle with equal finite open and close has a zero body. *)
Lemma flat_body k :
  flat k -> is_infinity (open k) = false -> body k = 0%float.
Proof. intros Hflat Hfin. now apply abs_sub_eqb. Qed.

Lemma doji_row_flat thr k :
  flat k -> is_infinity (open k) = false ->
  doji_row thr k = true <-> (0 <? thr * range k)%float = true.
Proof.
  intros Hflat Hfin. unfold doji_row. rewrite (flat_body k Hflat Hfin).
  destruct (range k =? 0)%float eqn:Hz; [|reflexivity].
  rewrite (mul_zero_not_pos thr _ Hz). reflexivity.
Qed.

(** C10, as stated, fails: the first two candles have [open == close] and
    [high != low], both thresholds are positive, and the Doji rule returns
    false, because [threshold * range] rounds to zero.  So does it on a
    zero-body candle at an infinite price, whose body is [NaN]; and next to a
    record with a zero range the rule returns nothing for any record. *)
Lemma doji_zero_body_counterexample :
  ((open tiny_range_candle =? close tiny_range_candle)%float = true /\
   (high tiny_range_candle =? low tiny_range_candle)%float = false /\
   (0 <? default_threshold)%float = true /\
   detect_doji (ohlc_frame [tiny_range_candle]) default_threshold = Ok [false]) /\
  ((open plain_flat_candle =? close plain_flat_candle)%float = true /\
   (high plain_flat_candle =? low plain_flat_candle)%float = false /\
   (0 <? 5e-324)%float = true /\
   detect_doji (ohlc_frame [plain_flat_candle]) 5e-324 = Ok [false]) /\
  ((open infinite_flat_candle =? close infinite_flat_candle)%float = true /\
   (high infinite_flat_candle =? low infinite_flat_candle)%float = false /\
   detect_doji (ohlc_frame [infinite_flat_candle]) default_threshold
   = Ok [false]) /\
  detect_doji (ohlc_frame [plain_flat_candle; scenario1]) default_threshold
  = Raise na_truth_error.
Proof. by_running. Qed.

(** C10, amended. In a table none of whose records has a zero range, for
    every candle with equal finite open and close and [high != low], and for
    every threshold, the Doji rule returns true exactly when the binary64
    product [threshold * range] is greater than zero. *)
Theorem detect_doji_zero_body df cs threshold :
  holds df cs ->
  Forall (fun k => zero_range k = false) cs ->
  exists flags,
    detect_doji df threshold = Ok flags /\
    Forall2 (fun k b =>
               flat k -> is_infinity (open k) = false ->
               (high k =? low k)%float = false ->
               (b = true <-> (0 <? threshold * range k)%float = true))
            cs flags.
Proof.
  intros Hdf Hnz. exists (map (doji_row threshold) cs).
  split; [now apply detect_doji_returns|].
  apply Forall2_fmap_r, Forall_Forall2_diag, Forall_forall.
  intros k _ Hflat Hfin _. now apply doji_row_flat.
Qed.

Lemma detect_doji_zero_body_witness :
  holds (ohlc_frame [plain_flat_candle]) [plain_flat_candle] /\
  Forall (fun k => zero_range k = false) [plain_flat_candle] /\
  exists flags,
    detect_doji (ohlc_frame [plain_flat_candle]) 0.1 = Ok flags /\
    Forall2 (fun k b =>
               flat k -> is_infinity (open k) = false ->
               (high k =? low k)%float = false ->
               (b = true <-> (0 <? 0.1 * range k)%float = true))
            [plain_flat_candle] flags.
Proof.
  assert (H : holds (ohlc_frame [plain_flat_candle]) [plain_flat_candle])
    by by_running.
  assert (Hnz : Forall (fun k => zero_range k = false) [plain_flat_candle])
    by (repeat constructor).
  split; [exact H|]. split; [exact Hnz|].
  apply (detect_doji_zero_body _ _ 0.1%float H Hnz).
Defined.

(* ===================================================================== *)
(** * The Engulfing rule *)
(* ===================================================================== *)

Lemma and_na_some a b : and_na (Some a) (Some b) = Some (a && b).
Proof. now destruct a, b. Qed.

(** A shifted price column is the column of the predecessors. *)
Lemma take_prev (g : Candle -> float) n (l : list Candle) p0 :
  take n (Some (from_option g nan p0) :: map (fun k => Some (g k)) l)
  = map (fun p => Some (from_option g nan p)) (take n (p0 :: map Some l)).
Proof.
  revert l p0. induction n as [|n IH]; intros l p0; [reflexivity|].
  cbn [take map]. f_equal.
  destruct l as [|k l]; cbn [map].
  - now destruct n.
  - apply (IH l (Some k)).
Qed.

Lemma prev_series (g : Candle -> float) cs :
  take (length (map (fun k => Some (g k)) cs))
       (Some nan :: map (fun k => Some (g k)) cs)
  = map (fun p => Some (from_option g nan p)) (prevs cs).
Proof. rewrite length_map. apply (take_prev g (length cs) cs None). Qed.

Lemma prevs_length cs : length (prevs cs) = length cs.
Proof.
  unfold prevs. rewrite length_take. cbn [length]. rewrite length_map. lia.
Qed.

Lemma prevs_next cs i prev curr :
  cs !! i = Some prev -> cs !! S i = Some curr ->
  prevs cs !! S i = Some (Some prev).
Proof.
  intros Hp Hc. unfold prevs.
  rewrite lookup_take_lt by (apply lookup_lt_Some in Hc; lia).
  change ((None :: map Some cs) !! S i) with ((Some <$> cs) !! i).
  now rewrite list_lookup_fmap, Hp.
Qed.

(** The two masks, row by row. *)
Lemma be_mask_rows (ps : list (option Candle)) (cs : list Candle) :
  let pc := map (fun p => Some (prev_close p)) ps in
  let po := map (fun p => Some (prev_open p)) ps in
  let c := map (fun k => Some (close k)) cs in
  let o := map (fun k => Some (open k)) cs in
  sand (sand (sand (slt pc po) (sgt c o)) (sle o pc)) (sge c po)
  = zip_with (fun p k => Some (be_row p k)) ps cs.
Proof.
  cbv zeta. revert cs. induction ps as [|p ps IH]; intros [|k cs]; try reflexivity.
  unfold sand, slt, sgt, sle, sge in *. cbn [map zip_with]. rewrite IH.
  f_equal. cbv [lift2 id]. now rewrite !and_na_some.
Qed.

Lemma se_mask_rows (ps : list (option Candle)) (cs : list Candle) :
  let pc := map (fun p => Some (prev_close p)) ps in
  let po := map (fun p => Some (prev_open p)) ps in
  let c := map (fun k => Some (close k)) cs in
  let o := map (fun k => Some (open k)) cs in
  sand (sand (sand (sgt pc po) (slt c o)) (sge o pc)) (sle c po)
  = zip_with (fun p k => Some (se_row p k)) ps cs.
Proof.
  cbv zeta. revert cs. induction ps as [|p ps IH]; intros [|k cs]; try reflexivity.
  unfold sand, slt, sgt, sle, sge in *. cbn [map zip_with]. rewrite IH.
  f_equal. cbv [lift2 id]. now rewrite !and_na_some.
Qed.

Lemma engulfing_masks_rows df cs :
  holds df cs ->
  engulfing_masks df
  = Ok (zip_with (fun p k => Some (be_row p k)) (prevs cs) cs,
        zip_with (fun p k => Some (se_row p k)) (prevs cs) cs).
Proof.
  intros (_ & Ho & _ & _ & Hc). unfold engulfing_masks.
  rewrite (getf_shift _ _ _ Hc), (getf_shift _ _ _ Ho), Hc, Ho. run_binds.
  rewrite (prev_series close), (prev_series open).
  f_equal.
  f_equal; [exact (be_mask_rows (prevs cs) cs) | exact (se_mask_rows (prevs cs) cs)].
Qed.

(** The two assignments through the masks, row by row. *)
Lemma assign_rows (ps : list (option Candle)) (cs : list Candle) :
  length ps = length cs ->
  mask_assign
    (mask_assign (replicate (length cs) EmptyString)
       (fillna false (zip_with (fun p k => Some (be_row p k)) ps cs))
       "Bullish Engulfing")
    (fillna false (zip_with (fun p k => Some (se_row p k)) ps cs))
    "Bearish Engulfing"
  = zip_with engulfing_row ps cs.
Proof.
  revert cs. induction ps as [|p ps IH]; intros [|k cs] Hlen;
    try discriminate; [reflexivity|].
  injection Hlen as Hlen. unfold mask_assign, fillna in *.
  cbn [length replicate zip_with map]. now rewrite (IH cs Hlen).
Qed.

Lemma detect_engulfing_rows df cs :
  holds df cs -> detect_engulfing df = Ok (zip_with engulfing_row (prevs cs) cs).
Proof.
  intros Hdf. unfold detect_engulfing.
  rewrite (engulfing_masks_rows df cs Hdf). run_binds. cbn [fst snd].
  destruct Hdf as (-> & _). now rewrite assign_rows by apply prevs_length.
Qed.

Lemma engulfing_rows_length cs :
  length (zip_with engulfing_row (prevs cs) cs) = length cs.
Proof. rewrite length_zip_with, prevs_length. lia. Qed.

(** *** One pair of candles *)

Lemma be_row_iff prev curr :
  be_row (Some prev) curr = true <-> bullish_engulfing prev curr.
Proof.
  unfold be_row, bullish_engulfing. cbn. rewrite !andb_true_iff. tauto.
Qed.

Lemma se_row_iff prev curr :
  se_row (Some prev) curr = true <-> bearish_engulfing prev curr.
Proof.
  unfold se_row, bearish_engulfing. cbn. rewrite !andb_true_iff. tauto.
Qed.

(** The two masks are never both set: the previous candle cannot be both
    bearish and bullish. *)
Lemma be_se_exclusive p k : be_row p k = true -> se_row p k = false.
Proof.
  unfold be_row, se_row, gtb. rewrite !andb_true_iff.
  intros (((Hbear & _) & _) & _). now rewrite (ltb_asym _ _ Hbear).
Qed.

Lemma not_both prev curr :
  ~ (bullish_engulfing prev curr /\ bearish_engulfing prev curr).
Proof.
  rewrite <- be_row_iff, <- se_row_iff. intros [Hb Hs].
  apply be_se_exclusive in Hb. congruence.
Qed.

Lemma engulfing_row_bullish prev curr :
  engulfing_row (Some prev) curr = "Bullish Engulfing"
  <-> bullish_engulfing prev curr.
Proof.
  rewrite <- be_row_iff. unfold engulfing_row.
  destruct (be_row (Some prev) curr) eqn:Hb.
  - rewrite (be_se_exclusive _ _ Hb). tauto.
  - destruct (se_row (Some prev) curr); split; discriminate.
Qed.

Lemma engulfing_row_bearish prev curr :
  engulfing_row (Some prev) curr = "Bearish Engulfing"
  <-> bearish_engulfing prev curr.
Proof.
  rewrite <- se_row_iff. unfold engulfing_row.
  destruct (se_row (Some prev) curr); [tauto|].
  destruct (be_row (Some prev) curr); split; discriminate.
Qed.

Lemma engulfing_row_none prev curr :
  engulfing_row (Some prev) curr = EmptyString
  <-> ~ bullish_engulfing prev curr /\ ~ bearish_engulfing prev curr.
Proof.
  rewrite <- be_row_iff, <- se_row_iff. unfold engulfing_row.
  destruct (se_row (Some prev) curr), (be_row (Some prev) curr);
    (split;
     [ discriminate || (intros _; split; discriminate)
     | intros [Hb Hs]; try reflexivity; exfalso;
       (now apply Hb) || (now apply Hs) ]).
Qed.

(** A flat candle is neither bullish nor bearish. *)
Lemma flat_no_engulfing prev curr :
  flat prev \/ flat curr ->
  ~ bullish_engulfing prev curr /\ ~ bearish_engulfing prev curr.
Proof.
  unfold flat, bullish_engulfing, bearish_engulfing, gtb.
  intros [H|H]; apply eqb_not_ltb in H as [H1 H2];
    split; intros (? & ? & _); congruence.
Qed.

(** *** The sequence *)

Lemma engulfing_row_first k : engulfing_row None k = EmptyString.
Proof. reflexivity. Qed.

Lemma engulfing_lookup cs i prev curr :
  cs !! i = Some prev -> cs !! S i = Some curr ->
  zip_with engulfing_row (prevs cs) cs !! S i
  = Some (engulfing_row (Some prev) curr).
Proof.
  intros Hp Hc. apply lookup_zip_with_Some.
  exists (Some prev), curr. split; [reflexivity|].
  split; [now apply (prevs_next cs i prev curr) | exact Hc].
Qed.

Lemma engulfing_row_contract prev curr :
  engulfing_contract prev curr (Some (engulfing_row (Some prev) curr)).
Proof.
  unfold engulfing_contract.
  rewrite <- (engulfing_row_none prev curr).
  rewrite <- engulfing_row_bullish, <- engulfing_row_bearish.
  repeat split; try (intros [= H]; exact H); try (intros ->; reflexivity).
  intros Hflat. f_equal. apply engulfing_row_none.
  now apply flat_no_engulfing.
Qed.

(** C3. For every adjacent pair [(prev, curr)] of a sequence, the Engulfing
    rule returns (it does not raise) and classifies [curr] as Bullish
    Engulfing iff [prev.close < prev.open], [curr.close > curr.open],
    [curr.open <= prev.close] and [curr.close >= prev.open]; as Bearish
    Engulfing iff [prev.close > prev.open], [curr.close < curr.open],
    [curr.open >= prev.close] and [curr.close <= prev.open]; and as the empty
    string otherwise.  A flat candle in either role gives the empty string. *)
Theorem detect_engulfing_spec df cs :
  holds df cs ->
  exists out,
    detect_engulfing df = Ok out /\
    length out = length cs /\
    forall i prev curr,
      cs !! i = Some prev -> cs !! S i = Some curr ->
      engulfing_contract prev curr (out !! S i).
Proof.
  intros Hdf. exists (zip_with engulfing_row (prevs cs) cs).
  split; [now apply detect_engulfing_rows|].
  split; [apply engulfing_rows_length|].
  intros i prev curr Hp Hc. rewrite (engulfing_lookup cs i prev curr Hp Hc).
  apply engulfing_row_contract.
Qed.

Lemma detect_engulfing_spec_witness :
  holds (ohlc_frame scenario4) scenario4 /\
  exists out,
    detect_engulfing (ohlc_frame scenario4) = Ok out /\
    length out = length scenario4 /\
    forall i prev curr,
      scenario4 !! i = Some prev -> scenario4 !! S i = Some curr ->
      engulfing_contract prev curr (out !! S i).
Proof.
  assert (H : holds (ohlc_frame scenario4) scenario4) by by_running.
  split; [exact H|]. apply (detect_engulfing_spec _ _ H).
Defined.

(** Scenario 3 of the specification. *)
Example engulfing_scenario3 :
  detect_engulfing (ohlc_frame [scenario3_prev; scenario3_curr])
  = Ok [EmptyString; "Bullish Engulfing"].
Proof. by_running. Qed.

(** C4. For every non-empty sequence the Engulfing classification of the
    first record is the empty string, whatever its prices. *)
Theorem detect_engulfing_first df k cs :
  holds df (k :: cs) ->
  exists rest,
    detect_engulfing df = Ok (EmptyString :: rest) /\ length rest = length cs.
Proof.
  intros Hdf. rewrite (detect_engulfing_rows df (k :: cs) Hdf).
  pose proof (engulfing_rows_length (k :: cs)) as Hlen.
  change (prevs (k :: cs))
    with (None :: take (length cs) (map Some (k :: cs))) in *.
  cbn [zip_with] in *. rewrite engulfing_row_first.
  eexists. split; [reflexivity|]. cbn [length] in Hlen. lia.
Qed.

Lemma detect_engulfing_first_witness :
  holds (ohlc_frame scenario4) scenario4 /\
  exists rest,
    detect_engulfing (ohlc_frame scenario4) = Ok (EmptyString :: rest) /\
    length rest = 2.
Proof.
  assert (H : holds (ohlc_frame scenario4) scenario4) by by_running.
  split; [exact H|].
  apply (detect_engulfing_first _ scenario3_prev [scenario3_curr; scenario1] H).
Defined.

(** C5. For every sequence and every record of it, the two masks of the
    Engulfing rule are never both set, so the classification is never both
    Bullish Engulfing and Bearish Engulfing; and the two conditions exclude
    each other for all prices. *)
Theorem engulfing_exclusive df cs :
  holds df cs ->
  (exists be_mask se_mask out,
     engulfing_masks df = Ok (be_mask, se_mask) /\
     detect_engulfing df = Ok out /\
     forall i,
       ~ (be_mask !! i = Some (Some true) /\ se_mask !! i = Some (Some true)) /\
       ~ (out !! i = Some "Bullish Engulfing" /\
          out !! i = Some "Bearish Engulfing")) /\
  (forall prev curr,
     ~ (bullish_engulfing prev curr /\ bearish_engulfing prev curr)).
Proof.
  intros Hdf. split; [|apply not_both].
  eexists _, _, _. split; [exact (engulfing_masks_rows df cs Hdf)|].
  split; [exact (detect_engulfing_rows df cs Hdf)|].
  intros i. split.
  - intros [Hb Hs].
    apply lookup_zip_with_Some in Hb as (p & k & Hbe & Hp & Hk).
    apply lookup_zip_with_Some in Hs as (p' & k' & Hse & Hp' & Hk').
    assert (p' = p) as -> by congruence.
    assert (k' = k) as -> by congruence.
    injection Hbe as Hbe. injection Hse as Hse.
    symmetry in Hbe. apply be_se_exclusive in Hbe. congruence.
  - intros [Hb Hs]. rewrite Hb in Hs. discriminate.
Qed.

Lemma engulfing_exclusive_witness :
  holds (ohlc_frame scenario4) scenario4 /\
  (exists be_mask se_mask out,
     engulfing_masks (ohlc_frame scenario4) = Ok (be_mask, se_mask) /\
     detect_engulfing (ohlc_frame scenario4) = Ok out /\
     forall i,
       ~ (be_mask !! i = Some (Some true) /\ se_mask !! i = Some (Some true)) /\
       ~ (out !! i = Some "Bullish Engulfing" /\
          out !! i = Some "Bearish Engulfing")).
Proof.
  assert (H : holds (ohlc_frame scenario4) scenario4) by by_running.
  split; [exact H|]. apply (engulfing_exclusive _ _ H).
Defined.

(* ===================================================================== *)
(** * The combiner *)
(* ===================================================================== *)

Lemma join_fired_tags doji hammer engulfing :
  join ", " (fired_tags doji hammer engulfing) = label doji hammer engulfing.
Proof.
  unfold fired_tags, label.
  now destruct doji, hammer, (str_truthy engulfing).
Qed.

(** C6. For every record, the Pattern label is the names of the fired tags
    joined by [", "] in the order Doji, HammerLike, Engulfing, the last under
    the name the Engulfing rule gave it; it is the empty string when no rule
    fired.  [label] lists the eight combinations. *)
Theorem combine_label row doji hammer engulfing :
  row_get row "Doji" = Ok (VBool doji) ->
  row_get row "HammerLike" = Ok (VBool hammer) ->
  row_get row "Engulfing" = Ok (VStr engulfing) ->
  _combine row = Ok (join ", " (fired_tags doji hammer engulfing)) /\
  _combine row = Ok (label doji hammer engulfing) /\
  (fired_tags doji hammer engulfing = [] -> _combine row = Ok EmptyString).
Proof.
  intros Hd Hh He.
  assert (Hrun : _combine row = Ok (join ", " (fired_tags doji hammer engulfing))).
  { unfold _combine. rewrite Hd, Hh, He. run_binds. unfold fired_tags.
    cbn [truthy].
    now destruct doji, hammer, (str_truthy engulfing). }
  split; [exact Hrun|]. split.
  - now rewrite Hrun, join_fired_tags.
  - intros Hnone. now rewrite Hrun, Hnone.
Qed.

Lemma combine_label_witness :
  _combine sample_row = Ok "Doji, Bullish Engulfing".
Proof.
  apply (combine_label sample_row true false "Bullish Engulfing");
    vm_compute; reflexivity.
Defined.

(* ===================================================================== *)
(** * The column check *)
(* ===================================================================== *)

Lemma lower_index_acc labels (m : gmap string string) name :
  is_Some (foldl (fun m c => <[lower c := c]> m) m labels !! name)
  <-> is_Some (m !! name) \/ In name (map lower labels).
Proof.
  revert m. induction labels as [|c labels IH]; intros m; cbn [foldl map In].
  - tauto.
  - rewrite IH, lookup_insert_is_Some.
    destruct (decide (lower c = name)); tauto.
Qed.

(** A name is a key of the index iff some column label lower-cases to it. *)
Lemma lower_index_lookup labels name :
  is_Some (lower_index labels !! name) <-> In name (map lower labels).
Proof.
  unfold lower_index. rewrite lower_index_acc, lookup_empty.
  split; [intros [[? [=]]|H]; exact H | auto].
Qed.

Lemma lower_index_missing labels name :
  lower_index labels !! name = None <-> ~ In name (map lower labels).
Proof. rewrite <- lower_index_lookup, eq_None_not_Some. tauto. Qed.

Lemma main_missing args csv plot_error msg :
  _normalize_cols csv = Raise (KeyError msg) ->
  main args csv plot_error = mkOutcome [Stderr (repr msg)] (Ok 2%Z).
Proof. unfold main. now intros ->. Qed.

(** The loop of [_normalize_cols] stops at the first required name that no
    column matches, and succeeds when there is none. *)
Lemma normalize_cols_cases csv :
  (exists missing,
     In missing required_names /\
     ~ In missing (map lower (columns csv)) /\
     _normalize_cols csv = Raise (KeyError (missing_column_msg missing))) \/
  ((forall name, In name required_names -> In name (map lower (columns csv))) /\
   exists mapping, _normalize_cols csv = Ok (rename mapping csv)).
Proof.
  unfold _normalize_cols, required_names. cbn [for_each]. unfold normalize_step.
  destruct (lower_index (columns csv) !! "open") as [c1|] eqn:E1;
    [|left; exists "open"; rewrite <- lower_index_missing; cbn; auto].
  run_binds.
  destruct (lower_index (columns csv) !! "high") as [c2|] eqn:E2;
    [|left; exists "high"; rewrite <- lower_index_missing; cbn; auto].
  destruct (lower_index (columns csv) !! "low") as [c3|] eqn:E3;
    [|left; exists "low"; rewrite <- lower_index_missing; cbn; auto].
  destruct (lower_index (columns csv) !! "close") as [c4|] eqn:E4;
    [|left; exists "close"; rewrite <- lower_index_missing; cbn; auto 6].
  right. split; [|eexists; reflexivity].
  intros name [<-|[<-|[<-|[<-|[]]]]]; apply lower_index_lookup; eauto.
Qed.

(** C9. When a required column is absent after case-insensitive matching,
    the column check raises a [KeyError] that names a missing column, and
    [main] prints it on standard error, returns the exit code 2 and writes
    nothing else; when the four columns are present the check succeeds. *)
Theorem missing_column_reported args csv plot_error :
  (forall name,
     In name required_names -> ~ In name (map lower (columns csv)) ->
     exists missing,
       In missing required_names /\
       ~ In missing (map lower (columns csv)) /\
       _normalize_cols csv = Raise (KeyError (missing_column_msg missing)) /\
       main args csv plot_error
       = mkOutcome [Stderr (repr (missing_column_msg missing))] (Ok 2%Z) /\
       (2 <> 0)%Z) /\
  ((forall name, In name required_names -> In name (map lower (columns csv))) ->
   exists mapping, _normalize_cols csv = Ok (rename mapping csv)).
Proof.
  destruct (normalize_cols_cases csv)
    as [(missing & Hreq & Hmiss & Hrun)|(Hall & mapping & Hrun)].
  - split.
    + intros _ _ _. exists missing. repeat split; try assumption; try lia.
      now apply main_missing.
    + intros Hall. now destruct (Hmiss (Hall missing Hreq)).
  - split.
    + intros name Hreq Hmiss. now destruct (Hmiss (Hall name Hreq)).
    + intros _. now exists mapping.
Qed.

Lemma missing_column_reported_witness :
  (exists missing,
     In missing required_names /\
     ~ In missing (map lower (columns csv_without_low)) /\
     _normalize_cols csv_without_low
     = Raise (KeyError (missing_column_msg missing)) /\
     main (mkArgs "in.csv" (Some "out.csv") false) csv_without_low None
     = mkOutcome [Stderr (repr (missing_column_msg missing))] (Ok 2%Z) /\
     (2 <> 0)%Z) /\
  (exists mapping, _normalize_cols csv_complete = Ok (rename mapping csv_complete)).
Proof.
  split.
  - apply (proj1 (missing_column_reported
                    (mkArgs "in.csv" (Some "out.csv") false)
                    csv_without_low None) "low").
    + cbn. auto.
    + cbn. intros [H|[H|[H|[H|[]]]]]; discriminate.
  - apply (proj2 (missing_column_reported
                    (mkArgs "in.csv" None false) csv_complete None)).
    intros name [<-|[<-|[<-|[<-|[]]]]]; cbn; auto 6.
Defined.

(* ===================================================================== *)
(** * The Hammer rule and the detector *)
(* ===================================================================== *)

(** Whatever the frame, [detect_hammer] does not return: when the statements
    before it succeed, the call of [.min] on a list raises. *)
Lemma detect_hammer_never_returns df body_to_range lower_wick_min :
  exists e, detect_hammer df body_to_range lower_wick_min = Raise e.
Proof.
  unfold detect_hammer.
  destruct (getf df "O") as [o|e]; [|now exists e].
  destruct (getf df "C") as [c|e]; [|now exists e].
  destruct (getf df "H") as [h|e]; [|now exists e].
  destruct (getitem_list df ["O"; "C"]) as [oc|e]; [|now exists e].
  destruct (call_max_axis1 (PyFrame oc)) as [top|e] eqn:Htop; run_binds;
    rewrite Htop; eexists; reflexivity.
Qed.

Lemma getf_inv df name xs :
  getf df name = Ok xs ->
  exists col, getitem df name = Ok col /\ as_floats col = Ok xs.
Proof.
  unfold getf. destruct (getitem df name) as [col|]; [|discriminate].
  intros H. now exists col.
Qed.

(** On a frame whose price columns are numeric, the exception is the
    [AttributeError] of the third statement. *)
Lemma detect_hammer_attribute_error df o c h body_to_range lower_wick_min :
  getf df "O" = Ok o -> getf df "C" = Ok c -> getf df "H" = Ok h ->
  detect_hammer df body_to_range lower_wick_min
  = Raise (AttributeError "list" "min").
Proof.
  intros Ho Hc Hh. unfold detect_hammer. rewrite Ho, Hc, Hh.
  apply getf_inv in Ho as (co & Hco & Hfo).
  apply getf_inv in Hc as (cc & Hcc & Hfc).
  unfold getitem_list. cbn [traverse]. rewrite Hco, Hcc. run_binds.
  unfold call_max_axis1, reduce_axis1. cbn [traverse]. cbv beta iota.
  rewrite Hfo, Hfc. reflexivity.
Qed.

Lemma find_col_setitem_ne df name s n :
  name <> n -> find_col n (setitem df name s) = find_col n df.
Proof.
  intros Hne. induction df as [|[m col] df IH]; cbn.
  - destruct (String.eqb_spec name n); congruence.
  - destruct (String.eqb_spec m name) as [->|_]; cbn.
    + destruct (String.eqb_spec name n); congruence.
    + now rewrite IH.
Qed.

(** Setting one column leaves the reading of every other column as it was. *)
Lemma getf_setitem_ne df name s n :
  name <> n -> getf (setitem df name s) n = getf df n.
Proof.
  intros Hne. unfold getf, getitem. now rewrite find_col_setitem_ne.
Qed.

(** C1. The Hammer-Like rule of the specification is the conjunction of three
    conditions and false on a zero range, without an error; the code raises
    instead.  On every frame that holds candles, [detect_hammer] raises
    [AttributeError: 'list' object has no attribute 'min'], whatever its two
    parameters and whatever the candles, the zero-range ones included. *)
Theorem detect_hammer_raises df cs body_to_range lower_wick_min :
  holds df cs ->
  detect_hammer df body_to_range lower_wick_min
  = Raise (AttributeError "list" "min").
Proof.
  intros (_ & Ho & Hh & _ & Hc).
  now apply (detect_hammer_attribute_error df _ _ _ _ _ Ho Hc Hh).
Qed.

Lemma detect_hammer_raises_witness :
  holds (ohlc_frame [scenario1]) [scenario1] /\
  (range scenario1 =? 0)%float = true /\
  detect_hammer (ohlc_frame [scenario1])
    default_body_to_range default_lower_wick_min
  = Raise (AttributeError "list" "min").
Proof.
  assert (H : holds (ohlc_frame [scenario1]) [scenario1]) by by_running.
  split; [exact H|]. split; [vm_compute; reflexivity|].
  apply (detect_hammer_raises _ _ _ _ H).
Defined.

(** C7. The specification promises the input rows with four more columns;
    the code produces no table: for every input, [detect_patterns] raises. *)
Theorem detect_patterns_never_returns df :
  exists e, detect_patterns df = Raise e.
Proof.
  unfold detect_patterns.
  destruct (detect_doji df default_threshold) as [doji|e]; [|now exists e].
  run_binds.
  destruct (detect_hammer_never_returns (setitem df "Doji" (map VBool doji))
              default_body_to_range default_lower_wick_min) as [e ->].
  now exists e.
Qed.

(** On a frame that holds candles the exception of [detect_patterns] is the
    [TypeError] of [detect_doji] when a candle has a zero range, and the
    [AttributeError] of [detect_hammer] otherwise. *)
Lemma detect_patterns_error df cs :
  holds df cs ->
  detect_patterns df
  = Raise (if existsb zero_range cs then na_truth_error
           else AttributeError "list" "min").
Proof.
  intros Hdf. unfold detect_patterns.
  rewrite (detect_doji_rows df cs _ Hdf).
  destruct (existsb zero_range cs); [reflexivity|]. run_binds.
  destruct Hdf as (_ & Ho & Hh & _ & Hc).
  rewrite (detect_hammer_attribute_error _
             (map (fun k => Some (open k)) cs)
             (map (fun k => Some (close k)) cs)
             (map (fun k => Some (high k)) cs));
    [reflexivity| | |]; now rewrite getf_setitem_ne.
Qed.

(** C8. The specification asks that the detector never raises, also on
    candles that break the geometric invariant and on zero ranges and flat
    bodies; the code raises on every sequence.  On a frame that holds
    candles, [detect_patterns] raises the [TypeError] of [detect_doji] when a
    candle has a zero range, and the [AttributeError] of [detect_hammer]
    otherwise; [detect_hammer] itself raises that [AttributeError] on every
    such frame. *)
Theorem detect_patterns_raises df cs :
  holds df cs ->
  (Exists (fun k => zero_range k = true) cs ->
   detect_patterns df = Raise na_truth_error) /\
  (Forall (fun k => zero_range k = false) cs ->
   detect_patterns df = Raise (AttributeError "list" "min")) /\
  detect_hammer df default_body_to_range default_lower_wick_min
  = Raise (AttributeError "list" "min").
Proof.
  intros Hdf. pose proof (detect_patterns_error df cs Hdf) as Herr.
  split; [|split].
  - intros Hz. now rewrite existsb_zero_range_true in Herr.
  - intros Hnz. now rewrite existsb_zero_range_false in Herr.
  - destruct Hdf as (_ & Ho & Hh & _ & Hc).
    now apply (detect_hammer_attribute_error df _ _ _ _ _ Ho Hc Hh).
Qed.

Lemma detect_patterns_raises_witness :
  (holds (ohlc_frame [scenario1; inverted_candle]) [scenario1; inverted_candle] /\
   zero_range scenario1 = true /\
   detect_patterns (ohlc_frame [scenario1; inverted_candle])
   = Raise na_truth_error) /\
  (holds (ohlc_frame [scenario2; inverted_candle]) [scenario2; inverted_candle] /\
   Forall (fun k => zero_range k = false) [scenario2; inverted_candle] /\
   detect_patterns (ohlc_frame [scenario2; inverted_candle])
   = Raise (AttributeError "list" "min")).
Proof.
  assert (H1 : holds (ohlc_frame [scenario1; inverted_candle])
                 [scenario1; inverted_candle]) by by_running.
  assert (Hz : zero_range scenario1 = true) by (vm_compute; reflexivity).
  assert (H2 : holds (ohlc_frame [scenario2; inverted_candle])
                 [scenario2; inverted_candle]) by by_running.
  assert (Hnz : Forall (fun k => zero_range k = false)
                  [scenario2; inverted_candle])
    by (repeat constructor).
  split.
  - split; [exact H1|]. split; [exact Hz|].
    apply (proj1 (detect_patterns_raises _ _ H1)).
    apply Exists_cons_hd. exact Hz.
  - split; [exact H2|]. split; [exact Hnz|].
    apply (proj1 (proj2 (detect_patterns_raises _ _ H2)) Hnz).
Defined.

(** With the four columns present, [main] ends in one of the two exceptions:
    it writes nothing and returns no exit code. *)
Lemma main_raises args csv plot_error df cs :
  _normalize_cols csv = Ok df -> holds df cs ->
  main args csv plot_error
  = mkOutcome [] (Raise (if existsb zero_range cs then na_truth_error
                         else AttributeError "list" "min")).
Proof.
  intros Hnorm Hdf. unfold main.
  rewrite Hnorm, (detect_patterns_error df cs Hdf).
  now destruct (existsb zero_range cs).
Qed.

(** The detector raises on tables like scenario 4 of the specification,
    which expects their Pattern column: here the third record has a zero
    range, so the Doji rule raises first. *)
Example patterns_scenario4 :
  detect_patterns (ohlc_frame scenario4) = Raise na_truth_error /\
  detect_patterns (ohlc_frame [scenario3_prev; scenario3_curr; scenario2])
  = Raise (AttributeError "list" "min").
Proof. by_running. Qed.

(** The complete table passes the column check and then meets the same
    exception in [main]. *)
Example main_complete :
  _normalize_cols csv_complete
  = Ok [("Date", [VStr "2024-01-02"]); ("O", [VFloat 10]); ("H", [VFloat 10.5]);
        ("L", [VFloat 9.95]); ("C", [VFloat 10.02])] /\
  main (mkArgs "in.csv" (Some "out.csv") false) csv_complete None
  = mkOutcome [] (Raise (AttributeError "list" "min")).
Proof. by_running. Qed.

(* ===================================================================== *)
(** * Further properties of the rules *)
(* ===================================================================== *)

(** ** Missing prices and thresholds in the Doji rule *)

Lemma is_nan_spec x : is_nan x = true <-> Prim2SF x = S754_nan.
Proof.
  unfold is_nan. rewrite FloatAxioms.eqb_spec. unfold SFeqb.
  destruct (Prim2SF x) as [[]|[]| |[] m e]; cbn;
    rewrite ?Z.compare_refl, ?Pos.compare_cont_refl; cbn;
    split; intros H; try discriminate H; reflexivity.
Qed.

Lemma ltb_nan_l x y : Prim2SF x = S754_nan -> (x <? y)%float = false.
Proof. intros Hx. now rewrite FloatAxioms.ltb_spec, Hx. Qed.

Lemma leb_nan_l x y : Prim2SF x = S754_nan -> (x <=? y)%float = false.
Proof. intros Hx. now rewrite FloatAxioms.leb_spec, Hx. Qed.

Lemma leb_nan_r x y : Prim2SF y = S754_nan -> (x <=? y)%float = false.
Proof.
  intros Hy. rewrite FloatAxioms.leb_spec, Hy. unfold SFleb.
  now destruct (Prim2SF x).
Qed.

Lemma abs_sub_nan_l x y :
  Prim2SF x = S754_nan -> Prim2SF (abs (x - y)) = S754_nan.
Proof.
  intros Hx. now rewrite FloatAxioms.abs_spec, FloatAxioms.sub_spec, Hx.
Qed.

Lemma abs_sub_nan_r x y :
  Prim2SF y = S754_nan -> Prim2SF (abs (x - y)) = S754_nan.
Proof.
  intros Hy. rewrite FloatAxioms.abs_spec, FloatAxioms.sub_spec, Hy.
  now destruct (Prim2SF x).
Qed.

Lemma eqb_nan_l x y : Prim2SF x = S754_nan -> (x =? y)%float = false.
Proof. intros Hx. now rewrite FloatAxioms.eqb_spec, Hx. Qed.

(** A candle with a missing price is no Doji. *)
Lemma doji_row_missing thr k : missing_price k = true -> doji_row thr k = false.
Proof.
  unfold missing_price, doji_row, body, range.
  rewrite !orb_true_iff, !is_nan_spec. intros [[[Ho|Hh]|Hl]|Hc].
  - destruct (_ =? 0)%float; [reflexivity|].
    apply ltb_nan_l. now apply abs_sub_nan_l.
  - rewrite eqb_nan_l by now apply abs_sub_nan_l.
    apply ltb_nan_r, mul_nan_r. now apply abs_sub_nan_l.
  - rewrite eqb_nan_l by now apply abs_sub_nan_r.
    apply ltb_nan_r, mul_nan_r. now apply abs_sub_nan_r.
  - destruct (_ =? 0)%float; [reflexivity|].
    apply ltb_nan_l. now apply abs_sub_nan_r.
Qed.

(** A rounded product keeps the sign it is given, or is [NaN]. *)
Lemma binary_round_aux_sign sx m e l :
  binary_round_aux prec emax sx m e l = S754_nan \/
  binary_round_aux prec emax sx m e l = S754_zero sx \/
  binary_round_aux prec emax sx m e l = S754_infinity sx \/
  exists m' e', binary_round_aux prec emax sx m e l = S754_finite sx m' e'.
Proof.
  unfold binary_round_aux.
  destruct (shr_fexp prec emax m e l) as [mrs' e'].
  destruct (shr_fexp prec emax _ e' loc_Exact) as [mrs'' e''].
  destruct (shr_m mrs'') as [|p|p]; auto.
  destruct (e'' <=? emax - prec)%Z; eauto 6.
Qed.

(** The product of a threshold that is not positive with an absolute value
    is negative, a zero or [NaN]. *)
Lemma SFmul_nonpos_abs t x :
  SFleb t (S754_zero false) = true ->
  nonpos_or_nan (SF64mul t (SFabs x)).
Proof.
  unfold SF64mul.
  destruct t as [st|[]| |[] mt et]; try discriminate; intros _;
    destruct x as [sx|sx| |sx mx ex]; cbn [SFabs SFmul nonpos_or_nan xorb];
    auto.
  destruct (binary_round_aux_sign true (Z.pos (mt * mx)) (et + ex) loc_Exact)
    as [-> | [-> | [-> | (m' & e' & ->)]]]; cbn; auto.
Qed.

(** An absolute value is not below such an operand. *)
Lemma SFltb_abs_nonpos y r :
  nonpos_or_nan r -> SFltb (SFabs y) r = false.
Proof.
  destruct r as [sr|sr| |sr mr er]; cbn [nonpos_or_nan]; intros Hr;
    try subst sr; now destruct y as [sy|sy| |sy my ey].
Qed.

Lemma abs_ltb_nonpos_mul t x y :
  (t <=? 0)%float = true -> (abs y <? t * abs x)%float = false.
Proof.
  rewrite FloatAxioms.leb_spec, FloatAxioms.ltb_spec, FloatAxioms.mul_spec,
    !FloatAxioms.abs_spec.
  change (Prim2SF 0) with (S754_zero false).
  intros Ht. now apply SFltb_abs_nonpos, SFmul_nonpos_abs.
Qed.

Lemma doji_row_nonpos thr k :
  (thr <=? 0)%float = true -> doji_row thr k = false.
Proof.
  intros Ht. unfold doji_row, body, range.
  destruct (_ =? 0)%float; [reflexivity|]. now apply abs_ltb_nonpos_mul.
Qed.

(** X1. In a table none of whose records has a zero range (where the rule
    returns), a record with a missing price ([NaN] in open, high, low or
    close) is never marked Doji, whatever the threshold. *)
Theorem detect_doji_missing_price df cs threshold :
  holds df cs ->
  Forall (fun k => zero_range k = false) cs ->
  exists flags,
    detect_doji df threshold = Ok flags /\
    Forall2 (fun k b => missing_price k = true -> b = false) cs flags.
Proof.
  intros Hdf Hnz. exists (map (doji_row threshold) cs).
  split; [now apply detect_doji_returns|].
  apply Forall2_fmap_r, Forall_Forall2_diag, Forall_forall.
  intros k _ Hmiss. now apply doji_row_missing.
Qed.

(** X2. In a table none of whose records has a zero range (where the rule
    returns), a threshold that is zero or negative makes the Doji rule mark
    no record: the comparison [body < threshold * range] is strict and a body
    is never negative. *)
Theorem detect_doji_nonpositive_threshold df cs threshold :
  holds df cs ->
  Forall (fun k => zero_range k = false) cs ->
  (threshold <=? 0)%float = true ->
  detect_doji df threshold = Ok (replicate (length cs) false).
Proof.
  intros Hdf Hnz Ht. rewrite (detect_doji_returns df cs threshold Hdf Hnz).
  f_equal. clear Hdf Hnz. induction cs as [|k cs IH]; [reflexivity|].
  cbn [map length replicate]. now rewrite IH, doji_row_nonpos.
Qed.

Lemma detect_doji_missing_price_witness :
  holds (ohlc_frame [scenario2; nan_high_candle]) [scenario2; nan_high_candle] /\
  Forall (fun k => zero_range k = false) [scenario2; nan_high_candle] /\
  exists flags,
    detect_doji (ohlc_frame [scenario2; nan_high_candle]) 0.1 = Ok flags /\
    Forall2 (fun k b => missing_price k = true -> b = false)
            [scenario2; nan_high_candle] flags.
Proof.
  assert (H : holds (ohlc_frame [scenario2; nan_high_candle])
                [scenario2; nan_high_candle]) by by_running.
  assert (Hnz : Forall (fun k => zero_range k = false)
                  [scenario2; nan_high_candle]) by (repeat constructor).
  split; [exact H|]. split; [exact Hnz|].
  apply (detect_doji_missing_price _ _ 0.1%float H Hnz).
Defined.

Lemma detect_doji_nonpositive_threshold_witness :
  holds (ohlc_frame [scenario2; plain_flat_candle])
        [scenario2; plain_flat_candle] /\
  Forall (fun k => zero_range k = false) [scenario2; plain_flat_candle] /\
  (0 <=? 0)%float = true /\
  detect_doji (ohlc_frame [scenario2; plain_flat_candle]) 0 = Ok [false; false].
Proof.
  assert (H : holds (ohlc_frame [scenario2; plain_flat_candle])
                [scenario2; plain_flat_candle]) by by_running.
  assert (Hnz : Forall (fun k => zero_range k = false)
                  [scenario2; plain_flat_candle]) by (repeat constructor).
  assert (Ht : (0 <=? 0)%float = true) by (vm_compute; reflexivity).
  split; [exact H|]. split; [exact Hnz|]. split; [exact Ht|].
  apply (detect_doji_nonpositive_threshold _ _ 0%float H Hnz Ht).
Defined.

(** ** The output of the Engulfing rule *)

Lemma mask_assign_Forall {A} (P : A -> Prop) out mask v :
  Forall P out -> P v -> Forall P (mask_assign out mask v).
Proof.
  intros Hout Hv. unfold mask_assign. revert mask.
  induction Hout as [|o out Ho Hout IH]; intros [|m mask]; cbn;
    constructor; [now destruct m | apply IH].
Qed.

(** X3. Whatever the frame, when [detect_engulfing] returns, every value of
    its result is the empty string, "Bullish Engulfing" or
    "Bearish Engulfing". *)
Theorem detect_engulfing_values df out :
  detect_engulfing df = Ok out ->
  Forall (fun s => In s engulfing_values) out.
Proof.
  unfold detect_engulfing.
  destruct (engulfing_masks df) as [[be se]|e]; [|discriminate].
  run_binds. cbn [fst snd]. intros [= <-].
  apply mask_assign_Forall; [apply mask_assign_Forall|]; cbn; auto.
  apply Forall_forall. intros s Hs. apply elem_of_replicate in Hs as [-> _].
  cbn. auto.
Qed.

Lemma detect_engulfing_values_witness :
  Forall (fun s => In s engulfing_values)
         [EmptyString; "Bullish Engulfing"; EmptyString].
Proof.
  apply (detect_engulfing_values (ohlc_frame scenario4)).
  vm_compute. reflexivity.
Defined.

Lemma engulfing_row_cases p k :
  (engulfing_row p k = "Bearish Engulfing" /\ se_row p k = true) \/
  (engulfing_row p k = "Bullish Engulfing" /\ be_row p k = true) \/
  engulfing_row p k = EmptyString.
Proof.
  unfold engulfing_row. destruct (se_row p k); [auto|].
  destruct (be_row p k); auto.
Qed.

(** A candle cannot continue an engulfing of its own kind: the current candle
    of one is bullish (bearish), the previous candle of the next must be
    bearish (bullish). *)
Lemma engulfing_row_no_repeat p k k' :
  engulfing_row p k = engulfing_row (Some k) k' ->
  engulfing_row p k = EmptyString.
Proof.
  intros Heq.
  destruct (engulfing_row_cases p k) as [[Hs Hse]|[[Hb Hbe]|Hn]]; [| |exact Hn];
    destruct (engulfing_row_cases (Some k) k') as [[Hs' Hse']|[[Hb' Hbe']|Hn']];
    try congruence; exfalso.
  - unfold se_row, gtb in Hse, Hse'. rewrite !andb_true_iff in Hse, Hse'.
    destruct Hse as (((_ & Hbear) & _) & _).
    destruct Hse' as (((Hbull & _) & _) & _). cbn in Hbull.
    apply ltb_asym in Hbear. congruence.
  - unfold be_row, gtb in Hbe, Hbe'. rewrite !andb_true_iff in Hbe, Hbe'.
    destruct Hbe as (((_ & Hbull) & _) & _).
    destruct Hbe' as (((Hbear & _) & _) & _). cbn in Hbear.
    apply ltb_asym in Hbear. congruence.
Qed.

(** X4. No two consecutive records carry the same engulfing label: if two
    adjacent rows have equal classifications, both are the empty string. *)
Theorem detect_engulfing_no_repeat df cs :
  holds df cs ->
  exists out,
    detect_engulfing df = Ok out /\
    forall i s, out !! i = Some s -> out !! S i = Some s -> s = EmptyString.
Proof.
  intros Hdf. exists (zip_with engulfing_row (prevs cs) cs).
  split; [now apply detect_engulfing_rows|].
  intros i s Hi Hsi.
  apply lookup_zip_with_Some in Hi as (p & k & -> & Hp & Hk).
  apply lookup_zip_with_Some in Hsi as (p' & k' & Heq & Hp' & Hk').
  rewrite (prevs_next cs i k k' Hk Hk') in Hp'. injection Hp' as <-.
  now apply (engulfing_row_no_repeat p k k').
Qed.

Lemma detect_engulfing_no_repeat_witness :
  holds (ohlc_frame scenario4) scenario4 /\
  exists out,
    detect_engulfing (ohlc_frame scenario4) = Ok out /\
    forall i s, out !! i = Some s -> out !! S i = Some s -> s = EmptyString.
Proof.
  assert (H : holds (ohlc_frame scenario4) scenario4) by by_running.
  split; [exact H|]. apply (detect_engulfing_no_repeat _ _ H).
Defined.

(** A pair in which an open or a close is missing is no engulfing. *)
Lemma engulfing_row_missing prev curr :
  is_nan (open prev) || is_nan (close prev)
  || is_nan (open curr) || is_nan (close curr) = true ->
  engulfing_row (Some prev) curr = EmptyString.
Proof.
  rewrite !orb_true_iff, !is_nan_spec.
  unfold engulfing_row, se_row, be_row, gtb, geb, prev_open, prev_close.
  cbn [from_option].
  intros [[[H|H]|H]|H];
    rewrite ?(ltb_nan_l _ _ H), ?(ltb_nan_r _ _ H);
    cbn [andb]; rewrite ?andb_false_r; reflexivity.
Qed.

(** X5. A record is given the empty classification whenever the open or the
    close of the record or of its predecessor is missing ([NaN]). *)
Theorem detect_engulfing_missing_price df cs :
  holds df cs ->
  exists out,
    detect_engulfing df = Ok out /\
    forall i prev curr,
      cs !! i = Some prev -> cs !! S i = Some curr ->
      is_nan (open prev) || is_nan (close prev)
      || is_nan (open curr) || is_nan (close curr) = true ->
      out !! S i = Some EmptyString.
Proof.
  intros Hdf. exists (zip_with engulfing_row (prevs cs) cs).
  split; [now apply detect_engulfing_rows|].
  intros i prev curr Hp Hc Hnan.
  rewrite (engulfing_lookup cs i prev curr Hp Hc).
  now rewrite engulfing_row_missing.
Qed.

Lemma detect_engulfing_missing_price_witness :
  holds (ohlc_frame gap_sequence) gap_sequence /\
  exists out,
    detect_engulfing (ohlc_frame gap_sequence) = Ok out /\
    forall i prev curr,
      gap_sequence !! i = Some prev -> gap_sequence !! S i = Some curr ->
      is_nan (open prev) || is_nan (close prev)
      || is_nan (open curr) || is_nan (close curr) = true ->
      out !! S i = Some EmptyString.
Proof.
  assert (H : holds (ohlc_frame gap_sequence) gap_sequence) by by_running.
  split; [exact H|]. apply (detect_engulfing_missing_price _ _ H).
Defined.

(** The classification of a pair reads the opens and closes only. *)
Lemma engulfing_row_body p1 p2 k1 k2 :
  prev_open p1 = prev_open p2 -> prev_close p1 = prev_close p2 ->
  open k1 = open k2 -> close k1 = close k2 ->
  engulfing_row p1 k1 = engulfing_row p2 k2.
Proof.
  intros Hpo Hpc Ho Hc. unfold engulfing_row, se_row, be_row.
  now rewrite Hpo, Hpc, Ho, Hc.
Qed.

Lemma engulfing_rows_body cs1 : forall cs2 p1 p2,
  prev_open p1 = prev_open p2 -> prev_close p1 = prev_close p2 ->
  map open cs1 = map open cs2 -> map close cs1 = map close cs2 ->
  zip_with engulfing_row (take (length cs1) (p1 :: map Some cs1)) cs1
  = zip_with engulfing_row (take (length cs2) (p2 :: map Some cs2)) cs2.
Proof.
  induction cs1 as [|k1 cs1 IH]; intros [|k2 cs2] p1 p2 Hpo Hpc Ho Hc;
    try discriminate; [reflexivity|].
  injection Ho as Ho Hos. injection Hc as Hc Hcs.
  cbn [length map take zip_with]. f_equal.
  - now apply engulfing_row_body.
  - now apply (IH cs2 (Some k1) (Some k2)).
Qed.

(** X6. The Engulfing rule reads the opens and closes only: two sequences
    with the same opens and closes, whatever their highs and lows, get the
    same classifications. *)
Theorem detect_engulfing_ignores_wicks df1 cs1 df2 cs2 :
  holds df1 cs1 -> holds df2 cs2 ->
  map open cs1 = map open cs2 -> map close cs1 = map close cs2 ->
  detect_engulfing df1 = detect_engulfing df2.
Proof.
  intros H1 H2 Ho Hc.
  rewrite (detect_engulfing_rows df1 cs1 H1), (detect_engulfing_rows df2 cs2 H2).
  f_equal. now apply (engulfing_rows_body cs1 cs2 None None).
Qed.

Lemma detect_engulfing_ignores_wicks_witness :
  detect_engulfing (ohlc_frame [scenario3_prev; scenario3_curr])
  = detect_engulfing (ohlc_frame [scenario3_prev; scenario3_curr_wide]).
Proof.
  apply (detect_engulfing_ignores_wicks
           _ [scenario3_prev; scenario3_curr]
           _ [scenario3_prev; scenario3_curr_wide]); by_running.
Defined.

(** ** The label of the combiner *)

Lemma combine_value row doji hammer engulfing :
  row_get row "Doji" = Ok (VBool doji) ->
  row_get row "HammerLike" = Ok (VBool hammer) ->
  row_get row "Engulfing" = Ok (VStr engulfing) ->
  _combine row = Ok (label doji hammer engulfing).
Proof.
  intros Hd Hh He. unfold _combine. rewrite Hd, Hh, He. run_binds.
  unfold label. cbn [truthy].
  now destruct doji, hammer, (str_truthy engulfing).
Qed.

Lemma label_empty doji hammer engulfing :
  label doji hammer engulfing = EmptyString
  <-> doji = false /\ hammer = false /\ engulfing = EmptyString.
Proof.
  unfold label.
  destruct doji, hammer, engulfing as [|a e]; cbn;
    split; try discriminate; try tauto; intros (? & ? & ?); discriminate.
Qed.

(** X7. The Pattern label of a record is empty exactly when no rule fired:
    any fired rule leaves a non-empty label. *)
Theorem combine_empty_iff row doji hammer engulfing :
  row_get row "Doji" = Ok (VBool doji) ->
  row_get row "HammerLike" = Ok (VBool hammer) ->
  row_get row "Engulfing" = Ok (VStr engulfing) ->
  (_combine row = Ok EmptyString
   <-> doji = false /\ hammer = false /\ engulfing = EmptyString).
Proof.
  intros Hd Hh He. rewrite (combine_value row doji hammer engulfing Hd Hh He).
  rewrite <- label_empty. split; [now intros [= ->] | now intros ->].
Qed.

Lemma combine_empty_iff_witness :
  _combine quiet_row = Ok EmptyString
  <-> false = false /\ false = false /\ EmptyString = EmptyString.
Proof.
  apply (combine_empty_iff quiet_row false false EmptyString);
    vm_compute; reflexivity.
Defined.

(** The label of rule outputs determines them. *)
Lemma label_inj d1 h1 e1 d2 h2 e2 :
  In e1 engulfing_values -> In e2 engulfing_values ->
  label d1 h1 e1 = label d2 h2 e2 -> d1 = d2 /\ h1 = h2 /\ e1 = e2.
Proof.
  intros [<-|[<-|[<-|[]]]] [<-|[<-|[<-|[]]]];
    destruct d1, h1, d2, h2; cbn; intros H; try discriminate H; auto.
Qed.

(** X8. The Pattern label can be read back: two records whose Engulfing
    cells are values of the Engulfing rule and whose labels are equal have
    the same Doji flag, the same HammerLike flag and the same Engulfing
    value. *)
Theorem combine_injective row1 d1 h1 e1 row2 d2 h2 e2 :
  row_get row1 "Doji" = Ok (VBool d1) ->
  row_get row1 "HammerLike" = Ok (VBool h1) ->
  row_get row1 "Engulfing" = Ok (VStr e1) ->
  row_get row2 "Doji" = Ok (VBool d2) ->
  row_get row2 "HammerLike" = Ok (VBool h2) ->
  row_get row2 "Engulfing" = Ok (VStr e2) ->
  In e1 engulfing_values -> In e2 engulfing_values ->
  _combine row1 = _combine row2 ->
  d1 = d2 /\ h1 = h2 /\ e1 = e2.
Proof.
  intros Hd1 Hh1 He1 Hd2 Hh2 He2 Hv1 Hv2.
  rewrite (combine_value row1 d1 h1 e1 Hd1 Hh1 He1).
  rewrite (combine_value row2 d2 h2 e2 Hd2 Hh2 He2).
  intros [= Heq]. now apply label_inj.
Qed.

Lemma combine_injective_witness :
  _combine sample_row = _combine sample_row_other /\
  true = true /\ false = false /\ "Bullish Engulfing" = "Bullish Engulfing".
Proof.
  split; [vm_compute; reflexivity|].
  apply (combine_injective sample_row true false "Bullish Engulfing"
                           sample_row_other true false "Bullish Engulfing");
    try (vm_compute; reflexivity); cbn; auto.
Defined.

(** ** The command line, as it runs *)

Lemma detect_patterns_fails df : exists e, detect_patterns df = Raise e.
Proof.
  unfold detect_patterns.
  destruct (detect_doji df default_threshold) as [doji|e]; [|now exists e].
  run_binds.
  destruct (detect_hammer_never_returns (setitem df "Doji" (map VBool doji))
              default_body_to_range default_lower_wick_min) as [e ->].
  now exists e.
Qed.



(** X10. The options of the command line have no effect: runs on the same
    table end the same way whatever the output path, the plot flag and the
    state of the plotting library. *)
Theorem main_ignores_options args1 args2 csv plot_error1 plot_error2 :
  main args1 csv plot_error1 = main args2 csv plot_error2.
Proof.
  unfold main. destruct (_normalize_cols csv) as [df|e]; [|reflexivity].
  now destruct (detect_patterns_fails df) as [e ->].
Qed.

(** ** The column check, in detail *)

(** The loop fails at the first name without a column. *)
Lemma for_each_first_missing cols pre name post : forall mapping,
  (forall n, In n pre -> is_Some (cols !! n)) ->
  cols !! name = None ->
  for_each (normalize_step cols) (pre ++ name :: post)%list mapping
  = Raise (KeyError (missing_column_msg name)).
Proof.
  induction pre as [|n pre IH]; intros mapping Hpre Hname; cbn [app for_each].
  - unfold normalize_step. now rewrite Hname.
  - destruct (Hpre n (or_introl eq_refl)) as [c Hc].
    assert (Hstep : normalize_step cols mapping n
                    = Ok (<[c := upper (substring 0 1 n)]> mapping))
      by (unfold normalize_step; now rewrite Hc).
    rewrite Hstep. run_binds.
    apply IH; [|exact Hname]. intros n' Hn'. apply Hpre. now right.
Qed.

(** X11. The column check looks for open, high, low and close in this order
    and reports the first one that no column matches, whatever else is
    missing. *)
Theorem normalize_cols_first_missing df pre name post :
  required_names = (pre ++ name :: post)%list ->
  (forall n, In n pre -> In n (map lower (columns df))) ->
  ~ In name (map lower (columns df)) ->
  _normalize_cols df = Raise (KeyError (missing_column_msg name)).
Proof.
  intros Hsplit Hpre Hname. unfold _normalize_cols. rewrite Hsplit.
  rewrite (for_each_first_missing _ pre name post); [reflexivity| |].
  - intros n Hn. now apply lower_index_lookup, Hpre.
  - now apply lower_index_missing.
Qed.

Lemma normalize_cols_first_missing_witness :
  _normalize_cols [("Date", [VStr "2024-01-02"]); ("Open", [VFloat 10])]
  = Raise (KeyError (missing_column_msg "high")).
Proof.
  apply (normalize_cols_first_missing _ ["open"] "high" ["low"; "close"]).
  - reflexivity.
  - intros n [<-|[]]. cbn. auto.
  - cbn. intros [H|[H|[]]]; discriminate.
Defined.

(** The column the index keeps for a name is the last one that matches. *)
Lemma lower_index_last labels name c :
  lower_index labels !! name = Some c ->
  exists i,
    labels !! i = Some c /\ lower c = name /\
    forall j c', i < j -> labels !! j = Some c' -> lower c' <> name.
Proof.
  unfold lower_index. revert c.
  induction labels as [|x labels IH] using rev_ind; intros c.
  - cbn. rewrite lookup_empty. discriminate.
  - rewrite foldl_snoc. destruct (decide (lower x = name)) as [Hx|Hx].
    + rewrite <- Hx, lookup_insert_eq. intros [= <-].
      exists (length labels). split; [apply list_lookup_middle; reflexivity|].
      split; [reflexivity|]. intros j c' Hj Hc'.
      apply lookup_lt_Some in Hc'. rewrite length_app in Hc'. cbn in Hc'. lia.
    + rewrite lookup_insert_ne by exact Hx. intros Hc.
      destruct (IH c Hc) as (i & Hi & Hlow & Hlast).
      exists i. split; [now apply lookup_app_l_Some|]. split; [exact Hlow|].
      intros j c' Hj Hc'.
      destruct (decide (j < length labels)) as [Hlt|Hge].
      * rewrite lookup_app_l in Hc' by exact Hlt. now apply (Hlast j c').
      * rewrite lookup_app_r in Hc' by lia.
        destruct (j - length labels) as [|n]; cbn in Hc'; [|discriminate].
        now injection Hc' as <-.
Qed.

(** What a successful check returns: the frame renamed by a mapping of
    four entries, one per required name. *)
Lemma normalize_cols_ok df df' :
  _normalize_cols df = Ok df' ->
  exists c1 c2 c3 c4,
    lower_index (columns df) !! "open" = Some c1 /\
    lower_index (columns df) !! "high" = Some c2 /\
    lower_index (columns df) !! "low" = Some c3 /\
    lower_index (columns df) !! "close" = Some c4 /\
    df' = rename (<[c4 := "C"]> (<[c3 := "L"]> (<[c2 := "H"]>
                   (<[c1 := "O"]> ∅)))) df.
Proof.
  unfold _normalize_cols, required_names. cbn [for_each]. unfold normalize_step.
  destruct (lower_index (columns df) !! "open") as [c1|]; [|discriminate].
  run_binds.
  destruct (lower_index (columns df) !! "high") as [c2|]; [|discriminate].
  destruct (lower_index (columns df) !! "low") as [c3|]; [|discriminate].
  destruct (lower_index (columns df) !! "close") as [c4|]; [|discriminate].
  intros [= <-]. now exists c1, c2, c3, c4.
Qed.

Lemma lower_index_sound labels name c :
  lower_index labels !! name = Some c -> lower c = name.
Proof. intros H. now destruct (lower_index_last _ _ _ H) as (_ & _ & ? & _). Qed.

(** The entries of the mapping of a successful check. *)
Lemma normalize_mapping_lookup labels c1 c2 c3 c4 c v :
  lower_index labels !! "open" = Some c1 ->
  lower_index labels !! "high" = Some c2 ->
  lower_index labels !! "low" = Some c3 ->
  lower_index labels !! "close" = Some c4 ->
  (<[c4 := "C"]> (<[c3 := "L"]> (<[c2 := "H"]> (<[c1 := "O"]> ∅)))
     : gmap string string) !! c = Some v ->
  In (lower c) required_names /\ v = upper (substring 0 1 (lower c)).
Proof.
  intros H1 H2 H3 H4.
  apply lower_index_sound in H1, H2, H3, H4.
  rewrite !lookup_insert_Some, lookup_empty.
  intros [[<- <-]|[_ [[<- <-]|[_ [[<- <-]|[_ [[<- <-]|[_ [=]]]]]]]]];
    rewrite ?H1, ?H2, ?H3, ?H4; cbn; auto 6.
Qed.

Lemma normalize_mapping_entry labels c1 c2 c3 c4 name c :
  lower_index labels !! "open" = Some c1 ->
  lower_index labels !! "high" = Some c2 ->
  lower_index labels !! "low" = Some c3 ->
  lower_index labels !! "close" = Some c4 ->
  In name required_names ->
  lower_index labels !! name = Some c ->
  (<[c4 := "C"]> (<[c3 := "L"]> (<[c2 := "H"]> (<[c1 := "O"]> ∅)))
     : gmap string string) !! c = Some (upper (substring 0 1 name)).
Proof.
  intros H1 H2 H3 H4 Hname Hc.
  pose proof (lower_index_sound _ _ _ H1) as L1.
  pose proof (lower_index_sound _ _ _ H2) as L2.
  pose proof (lower_index_sound _ _ _ H3) as L3.
  pose proof (lower_index_sound _ _ _ H4) as L4.
  destruct Hname as [<-|[<-|[<-|[<-|[]]]]];
    rewrite ?H1, ?H2, ?H3, ?H4 in Hc; injection Hc as <-; cbn.
  - rewrite !lookup_insert_ne by congruence. apply lookup_insert_eq.
  - rewrite !lookup_insert_ne by congruence. apply lookup_insert_eq.
  - rewrite lookup_insert_ne by congruence. apply lookup_insert_eq.
  - apply lookup_insert_eq.
Qed.

Lemma rename_data mapping df : map snd (rename mapping df) = map snd df.
Proof.
  unfold rename. induction df as [|[n c] df IH]; cbn; [reflexivity|].
  now rewrite IH.
Qed.

Lemma rename_columns mapping df :
  columns (rename mapping df)
  = map (fun n => default n (mapping !! n)) (columns df).
Proof.
  unfold rename, columns. induction df as [|[n c] df IH]; cbn; [reflexivity|].
  now rewrite IH.
Qed.

Lemma rename_lookup mapping df i n c :
  df !! i = Some (n, c) ->
  rename mapping df !! i = Some (default n (mapping !! n), c).
Proof.
  intros Hi. unfold rename.
  change (map ?f df) with (f <$> df). now rewrite list_lookup_fmap, Hi.
Qed.

(** X12. A successful column check changes labels only: the data of every
    column is kept, in the same order, and a label is either kept or, when it
    lower-cases to a required name, replaced by the upper-cased first letter
    of that name. *)
Theorem normalize_cols_frame df df' :
  _normalize_cols df = Ok df' ->
  map snd df' = map snd df /\
  Forall2 (fun old new =>
             new = old \/
             (In (lower old) required_names /\
              new = upper (substring 0 1 (lower old))))
          (columns df) (columns df').
Proof.
  intros Hrun.
  destruct (normalize_cols_ok df df' Hrun)
    as (c1 & c2 & c3 & c4 & H1 & H2 & H3 & H4 & ->).
  split; [apply rename_data|].
  rewrite rename_columns.
  apply Forall2_fmap_r, Forall_Forall2_diag, Forall_forall. intros old _.
  unfold compose.
  match goal with
  | |- context [default old (?m !! old)] => destruct (m !! old) as [v|] eqn:E
  end; cbn [default]; [right|now left].
  now apply (normalize_mapping_lookup (columns df) c1 c2 c3 c4 old v).
Qed.

Lemma normalize_cols_frame_witness :
  _normalize_cols csv_two_opens
  = Ok [("Open", [VFloat 1]); ("O", [VFloat 10]); ("H", [VFloat 10.5]);
        ("L", [VFloat 9.95]); ("C", [VFloat 10.02])] /\
  Forall2 (fun old new =>
             new = old \/
             (In (lower old) required_names /\
              new = upper (substring 0 1 (lower old))))
          (columns csv_two_opens) ["Open"; "O"; "H"; "L"; "C"].
Proof.
  assert (H : _normalize_cols csv_two_opens
              = Ok [("Open", [VFloat 1]); ("O", [VFloat 10]);
                    ("H", [VFloat 10.5]); ("L", [VFloat 9.95]);
                    ("C", [VFloat 10.02])]) by (vm_compute; reflexivity).
  split; [exact H|]. apply (normalize_cols_frame _ _ H).
Defined.

(** X13. After a successful column check, for each required name the last
    column whose label lower-cases to it carries that name's letter (O, H, L
    or C), at the same position and with the same data; an earlier column
    that matches the same name is not the one renamed. *)
Theorem normalize_cols_renames_last df df' name :
  _normalize_cols df = Ok df' ->
  In name required_names ->
  exists i c col,
    df !! i = Some (c, col) /\
    lower c = name /\
    (forall j c' col', i < j -> df !! j = Some (c', col') -> lower c' <> name) /\
    df' !! i = Some (upper (substring 0 1 name), col).
Proof.
  intros Hrun Hname.
  destruct (normalize_cols_ok df df' Hrun)
    as (c1 & c2 & c3 & c4 & H1 & H2 & H3 & H4 & ->).
  assert (Hc : exists c, lower_index (columns df) !! name = Some c).
  { destruct Hname as [<-|[<-|[<-|[<-|[]]]]]; eauto. }
  destruct Hc as [c Hc].
  destruct (lower_index_last _ _ _ Hc) as (i & Hi & Hlow & Hlast).
  unfold columns in Hi. change (map fst df) with (fst <$> df) in Hi.
  rewrite list_lookup_fmap in Hi.
  destruct (df !! i) as [[c0 col]|] eqn:Hdf; [|discriminate].
  injection Hi as ->.
  exists i, c, col. split; [exact Hdf|]. split; [exact Hlow|]. split.
  - intros j c' col' Hj Hj'. apply (Hlast j c' Hj).
    unfold columns. change (map fst df) with (fst <$> df).
    now rewrite list_lookup_fmap, Hj'.
  - rewrite (rename_lookup _ df i c col Hdf).
    now rewrite (normalize_mapping_entry (columns df) c1 c2 c3 c4 name c).
Qed.

Lemma normalize_cols_renames_last_witness :
  exists i c col,
    csv_two_opens !! i = Some (c, col) /\
    lower c = "open" /\
    (forall j c' col',
       i < j -> csv_two_opens !! j = Some (c', col') -> lower c' <> "open") /\
    [("Open", [VFloat 1]); ("O", [VFloat 10]); ("H", [VFloat 10.5]);
     ("L", [VFloat 9.95]); ("C", [VFloat 10.02])] !! i
    = Some (upper (substring 0 1 "open"), col).
Proof.
  apply (normalize_cols_renames_last csv_two_opens).
  - vm_compute. reflexivity.
  - cbn. auto.
Defined.

Lemma NoDup_map_eq {A B} (f : A -> B) (l : list A) x y :
  NoDup (map f l) -> In x l -> In y l -> f x = f y -> x = y.
Proof.
  induction l as [|a l IH]; cbn [map In]; [tauto|].
  intros Hnd Hx Hy Hf. apply NoDup_cons in Hnd as [Ha Hnd].
  rewrite list_elem_of_In in Ha.
  destruct Hx as [->|Hx], Hy as [->|Hy]; try reflexivity.
  - destruct Ha. rewrite Hf. now apply in_map.
  - destruct Ha. rewrite <- Hf. now apply in_map.
  - now apply IH.
Qed.

(** X14. The column check cannot be applied twice: when no two labels of a
    table agree up to case, a table that passed the check fails it afterwards
    with the message for [open], because its price columns are now labelled
    O, H, L and C. *)
Theorem normalize_cols_not_idempotent df df' :
  NoDup (map lower (columns df)) ->
  _normalize_cols df = Ok df' ->
  _normalize_cols df' = Raise (KeyError (missing_column_msg "open")).
Proof.
  intros Hnd Hrun.
  destruct (normalize_cols_ok df df' Hrun)
    as (c1 & c2 & c3 & c4 & H1 & H2 & H3 & H4 & ->).
  unfold _normalize_cols, required_names.
  rewrite (for_each_first_missing _ [] "open" ["high"; "low"; "close"]);
    [reflexivity|intros n []|].
  apply lower_index_missing. rewrite rename_columns, map_map.
  intros Hin. apply in_map_iff in Hin as (old & Hlow & Hold).
  match type of Hlow with
  | context [default old (?m !! old)] => destruct (m !! old) as [v|] eqn:E
  end; cbn [default] in Hlow.
  - destruct (normalize_mapping_lookup (columns df) c1 c2 c3 c4 old v
                H1 H2 H3 H4 E) as [Hreq ->].
    destruct Hreq as [Hn|[Hn|[Hn|[Hn|[]]]]]; rewrite <- Hn in Hlow;
      discriminate Hlow.
  - destruct (lower_index_last _ _ _ H1) as (i & Hi & Hc1 & _).
    assert (old = c1) as ->.
    { apply (NoDup_map_eq lower (columns df)); try assumption.
      - apply list_elem_of_In. now apply (list_elem_of_lookup_2 _ i).
      - congruence. }
    rewrite (normalize_mapping_entry (columns df) c1 c2 c3 c4 "open" c1)
      in E; try assumption; [discriminate|cbn; auto].
Qed.

Lemma normalize_cols_not_idempotent_witness :
  NoDup (map lower (columns csv_complete)) /\
  _normalize_cols
    [("Date", [VStr "2024-01-02"]); ("O", [VFloat 10]); ("H", [VFloat 10.5]);
     ("L", [VFloat 9.95]); ("C", [VFloat 10.02])]
  = Raise (KeyError (missing_column_msg "open")).
Proof.
  assert (Hnd : NoDup (map lower (columns csv_complete))).
  { apply (bool_decide_unpack _). vm_compute. exact I. }
  split; [exact Hnd|].
  apply (normalize_cols_not_idempotent csv_complete _ Hnd).
  vm_compute. reflexivity.
Defined.

(** ** Bullish and bearish as mirror images *)

Lemma SFcompare_opp a b :
  SFcompare (SFopp a) (SFopp b) = SFcompare b a.
Proof.
  destruct a as [[]|[]| |[] ma ea], b as [[]|[]| |[] mb eb]; cbn;
    try reflexivity;
    assert (Hm : Pos.compare_cont Eq mb ma
                 = CompOpp (Pos.compare_cont Eq ma mb))
      by (symmetry; apply (Pos.compare_cont_antisym ma mb Eq));
    rewrite (Z.compare_antisym ea eb), Hm;
    destruct (ea ?= eb)%Z; cbn; try reflexivity;
    destruct (Pos.compare_cont Eq ma mb); reflexivity.
Qed.

Lemma ltb_opp x y : (- x <? - y)%float = (y <? x)%float.
Proof.
  rewrite !FloatAxioms.ltb_spec, !FloatAxioms.opp_spec. unfold SFltb.
  now rewrite SFcompare_opp.
Qed.

Lemma leb_opp x y : (- x <=? - y)%float = (y <=? x)%float.
Proof.
  rewrite !FloatAxioms.leb_spec, !FloatAxioms.opp_spec. unfold SFleb.
  now rewrite SFcompare_opp.
Qed.

Lemma prev_open_mirror p : prev_open (mirror <$> p) = (- prev_open p)%float.
Proof. now destruct p. Qed.

Lemma prev_close_mirror p : prev_close (mirror <$> p) = (- prev_close p)%float.
Proof. now destruct p. Qed.

Lemma be_row_mirror p k : be_row (mirror <$> p) (mirror k) = se_row p k.
Proof.
  unfold be_row, se_row, gtb, geb.
  rewrite prev_open_mirror, prev_close_mirror. cbn [mirror open close].
  now rewrite !ltb_opp, !leb_opp.
Qed.

Lemma se_row_mirror p k : se_row (mirror <$> p) (mirror k) = be_row p k.
Proof.
  unfold be_row, se_row, gtb, geb.
  rewrite prev_open_mirror, prev_close_mirror. cbn [mirror open close].
  now rewrite !ltb_opp, !leb_opp.
Qed.

Lemma engulfing_row_mirror p k :
  engulfing_row (mirror <$> p) (mirror k) = swap_label (engulfing_row p k).
Proof.
  unfold engulfing_row. rewrite be_row_mirror, se_row_mirror.
  destruct (be_row p k) eqn:Hb.
  - now rewrite (be_se_exclusive p k Hb).
  - now destruct (se_row p k).
Qed.

Lemma engulfing_rows_mirror cs : forall p,
  zip_with engulfing_row
    (take (length (map mirror cs)) ((mirror <$> p) :: map Some (map mirror cs)))
    (map mirror cs)
  = map swap_label
      (zip_with engulfing_row (take (length cs) (p :: map Some cs)) cs).
Proof.
  induction cs as [|k cs IH]; intros p; [reflexivity|].
  cbn [length map take zip_with]. f_equal.
  - apply engulfing_row_mirror.
  - apply (IH (Some k)).
Qed.

(** X15. Bearish Engulfing is the mirror image of Bullish Engulfing: on the
    sequence with every price negated (high and low exchanged), the rule
    returns the classifications of the original sequence with the two labels
    exchanged. *)
Theorem detect_engulfing_mirror df cs df' :
  holds df cs -> holds df' (map mirror cs) ->
  exists out,
    detect_engulfing df = Ok out /\
    detect_engulfing df' = Ok (map swap_label out).
Proof.
  intros H H'. exists (zip_with engulfing_row (prevs cs) cs).
  split; [now apply detect_engulfing_rows|].
  rewrite (detect_engulfing_rows df' (map mirror cs) H'). f_equal.
  apply (engulfing_rows_mirror cs None).
Qed.

Lemma detect_engulfing_mirror_witness :
  holds (ohlc_frame scenario4) scenario4 /\
  holds (ohlc_frame (map mirror scenario4)) (map mirror scenario4) /\
  detect_engulfing (ohlc_frame scenario4)
  = Ok [EmptyString; "Bullish Engulfing"; EmptyString] /\
  exists out,
    detect_engulfing (ohlc_frame scenario4) = Ok out /\
    detect_engulfing (ohlc_frame (map mirror scenario4))
    = Ok (map swap_label out).
Proof.
  assert (H : holds (ohlc_frame scenario4) scenario4) by by_running.
  assert (H' : holds (ohlc_frame (map mirror scenario4)) (map mirror scenario4))
    by by_running.
  split; [exact H|]. split; [exact H'|]. split; [vm_compute; reflexivity|].
  apply (detect_engulfing_mirror _ _ _ H H').
Defined.

(** ** Frames without a price column *)

Lemma getf_missing df name :
  find_col name df = None -> getf df name = Raise (KeyError name).
Proof. intros H. unfold getf, getitem. now rewrite H. Qed.

(** X16. On a frame without a column labelled O (a table that was not
    normalized) the Doji rule, the Hammer rule and the detector raise
    [KeyError: 'O']: the missing column is reported before the Hammer rule
    reaches its faulty statement. *)
Theorem rules_missing_open df threshold body_to_range lower_wick_min :
  find_col "O" df = None ->
  detect_doji df threshold = Raise (KeyError "O") /\
  detect_hammer df body_to_range lower_wick_min = Raise (KeyError "O") /\
  detect_patterns df = Raise (KeyError "O").
Proof.
  intros Hmiss. apply getf_missing in Hmiss.
  assert (Hdoji : forall t, detect_doji df t = Raise (KeyError "O"))
    by (intros t; unfold detect_doji; now rewrite Hmiss).
  split; [apply Hdoji|]. split.
  - unfold detect_hammer. now rewrite Hmiss.
  - unfold detect_patterns. now rewrite Hdoji.
Qed.

Lemma rules_missing_open_witness :
  detect_doji csv_complete 0.1 = Raise (KeyError "O") /\
  detect_hammer csv_complete 0.25 2 = Raise (KeyError "O") /\
  detect_patterns csv_complete = Raise (KeyError "O").
Proof.
  apply (rules_missing_open csv_complete). vm_compute. reflexivity.
Defined.

(** ** The line on standard error *)

(** X17. The line [main] prints for a missing column is the message of the
    [KeyError] between double quotes: the [str] of a [KeyError] is the [repr]
    of its argument, and the message holds single quotes. *)
Theorem main_missing_line args csv plot_error name :
  In name required_names ->
  _normalize_cols csv = Raise (KeyError (missing_column_msg name)) ->
  events (main args csv plot_error)
  = [Stderr (String dquote
               ("Input CSV must contain column '" ++ name
                ++ "' (case-insensitive)" ++ String dquote EmptyString))].
Proof.
  intros Hname Hrun. rewrite (main_missing args csv plot_error _ Hrun).
  destruct Hname as [<-|[<-|[<-|[<-|[]]]]]; reflexivity.
Qed.

Lemma main_missing_line_witness :
  events (main (mkArgs "in.csv" None true) csv_without_low None)
  = [Stderr (String dquote
               ("Input CSV must contain column 'low' (case-insensitive)"
                ++ String dquote EmptyString))].
Proof.
  apply (main_missing_line _ csv_without_low None "low").
  - cbn. auto.
  - vm_compute. reflexivity.
Defined.
